(** * detect-thermal: the thermal-image detection edge function

    A shallow embedding of [supabase/functions/detect-thermal/index.ts]:
    the request handler passed to [serve], together with the built-ins it
    relies on ([JSON.parse], [String.prototype.match] with the pattern
    [/\[[\s\S]*\]/], [String.prototype.replace], property access with
    optional chaining, truthiness).

    The collaborators (auth verifier, object store, AI gateway, relational
    store) are outside the repository.  They are modelled as a [World] of
    answers, and every call the handler issues is recorded in a trace.
    Every awaited operation either returns or throws; what is thrown
    reaches the outer [catch].  The [console] calls are left out, and so
    are the resource limits of the engine (stack depth, memory). *)

From Stdlib Require Import List ZArith NArith Bool String Ascii Lia.
From Stdlib Require DecimalString DecimalPos DecimalZ.
Import ListNotations.

Set Warnings "-register-all".
Local Open Scope N_scope.

(* ===================================================================== *)
(** ** JavaScript strings *)
(* ===================================================================== *)

(** A JavaScript string is a sequence of UTF-16 code units. *)
Definition jsstring := list N.

(** An ASCII literal as a JavaScript string. *)
Definition str (s : string) : jsstring :=
  map N_of_ascii (list_ascii_of_string s).

(** The same, with every apostrophe standing for a quotation mark (code
    unit 34): used to write down literals of the source that contain
    quotation marks. *)
Definition js (s : string) : jsstring :=
  map (fun c => if c =? 39 then 34 else c) (str s).

Fixpoint jsstring_eqb (a b : jsstring) : bool :=
  match a, b with
  | [], [] => true
  | x :: a', y :: b' => (x =? y) && jsstring_eqb a' b'
  | _, _ => false
  end.

(* ===================================================================== *)
(** ** JSON values *)
(* ===================================================================== *)

(** A number is kept as the decimal value its literal denotes:
    [(-1)^neg * mant * 10^exp].  The engine rounds that value to the
    nearest binary64 (and to an infinity beyond the largest one), which
    this representation does not do: two literals of one binary64 are two
    values here.  The only place where the handler looks at a number is a
    truthiness test, see [number_is_zero]. *)
Record number := mkNumber { num_neg : bool; num_mant : N; num_exp : Z }.

Inductive JSValue : Type :=
| JNull
| JBool (b : bool)
| JNumber (n : number)
| JString (s : jsstring)
| JArray (elems : list JSValue)
| JObject (props : list (jsstring * JSValue)).

(** Own-property lookup. *)
Fixpoint lookup (k : jsstring) (props : list (jsstring * JSValue)) : option JSValue :=
  match props with
  | [] => None
  | (k', v) :: rest => if jsstring_eqb k k' then Some v else lookup k rest
  end.

(** [CreateDataProperty]: a repeated key keeps its place and takes the
    new value.  Keys stay in the order of the text: the order in which an
    engine lists integer-like keys is not modelled, properties are only
    looked up by name. *)
Fixpoint set_prop (props : list (jsstring * JSValue)) (k : jsstring) (v : JSValue)
  : list (jsstring * JSValue) :=
  match props with
  | [] => [(k, v)]
  | (k', v') :: rest =>
      if jsstring_eqb k k' then (k', v) :: rest else (k', v') :: set_prop rest k v
  end.

(** Integer literals of the source as numbers. *)
Definition num_int (z : Z) : JSValue :=
  JNumber (mkNumber (z <? 0)%Z (Z.abs_N z) 0).

(** A decimal literal [mant * 10^exp] of the source. *)
Definition num_dec (mant : N) (exp : Z) : JSValue :=
  JNumber (mkNumber false mant exp).

(* ===================================================================== *)
(** ** JSON.parse *)
(* ===================================================================== *)

Module Json.

Inductive parsed (A : Type) : Type :=
| Ok (a : A) (rest : jsstring)
| SyntaxError
| OutOfFuel.
Arguments Ok {A} a rest.
Arguments SyntaxError {A}.
Arguments OutOfFuel {A}.

(** JSON white space: space, tab, line feed, carriage return. *)
Definition is_ws (c : N) : bool :=
  (c =? 32) || (c =? 9) || (c =? 10) || (c =? 13).

Fixpoint skip_ws (s : jsstring) : jsstring :=
  match s with
  | c :: t => if is_ws c then skip_ws t else s
  | [] => []
  end.

Definition is_digit (c : N) : bool := (48 <=? c) && (c <=? 57).

Definition hex_val (c : N) : option N :=
  if (48 <=? c) && (c <=? 57) then Some (c - 48)
  else if (65 <=? c) && (c <=? 70) then Some (c - 55)
  else if (97 <=? c) && (c <=? 102) then Some (c - 87)
  else None.

(** The character a one-letter escape stands for. *)
Definition escape (c : N) : option N :=
  if c =? 34 then Some 34            (* quotation mark *)
  else if c =? 92 then Some 92       (* reverse solidus *)
  else if c =? 47 then Some 47       (* solidus *)
  else if c =? 98 then Some 8        (* b: backspace *)
  else if c =? 102 then Some 12      (* f: form feed *)
  else if c =? 110 then Some 10      (* n: line feed *)
  else if c =? 114 then Some 13      (* r: carriage return *)
  else if c =? 116 then Some 9       (* t: tab *)
  else None.

(** The characters of a string literal, after its opening quotation mark. *)
Fixpoint string_chars (s : jsstring) : parsed jsstring :=
  match s with
  | [] => SyntaxError
  | c :: t =>
      if c =? 34 then Ok [] t
      else if c =? 92 then
        match t with
        | [] => SyntaxError
        | e :: t' =>
            if e =? 117 then
              match t' with
              | h1 :: h2 :: h3 :: h4 :: t'' =>
                  match hex_val h1, hex_val h2, hex_val h3, hex_val h4 with
                  | Some a, Some b, Some c', Some d =>
                      match string_chars t'' with
                      | Ok r rest => Ok (((a * 16 + b) * 16 + c') * 16 + d :: r) rest
                      | other => other
                      end
                  | _, _, _, _ => SyntaxError
                  end
              | _ => SyntaxError
              end
            else
              match escape e with
              | Some x =>
                  match string_chars t' with
                  | Ok r rest => Ok (x :: r) rest
                  | other => other
                  end
              | None => SyntaxError
              end
        end
      else if c <? 32 then SyntaxError
      else
        match string_chars t with
        | Ok r rest => Ok (c :: r) rest
        | other => other
        end
  end.

(** The longest run of decimal digits at the head of [s]. *)
Fixpoint take_digits (s : jsstring) : list N * jsstring :=
  match s with
  | c :: t =>
      if is_digit c then let (ds, r) := take_digits t in (c - 48 :: ds, r)
      else ([], s)
  | [] => ([], [])
  end.

Definition digits_value (ds : list N) : N :=
  fold_left (fun acc d => acc * 10 + d) ds 0.

(** Integer part: a single 0, or a non-zero digit followed by digits. *)
Definition int_part (s : jsstring) : option (list N * jsstring) :=
  match s with
  | c :: t =>
      if c =? 48 then Some ([0], t)
      else if is_digit c then Some (take_digits s)
      else None
  | [] => None
  end.

(** Optional fraction: a point followed by at least one digit. *)
Definition frac_part (s : jsstring) : option (list N * jsstring) :=
  match s with
  | c :: t =>
      if c =? 46 then
        match take_digits t with
        | ([], _) => None
        | (ds, r) => Some (ds, r)
        end
      else Some ([], s)
  | [] => Some ([], [])
  end.

(** Optional exponent: e or E, an optional sign, at least one digit. *)
Definition exp_part (s : jsstring) : option (Z * jsstring) :=
  match s with
  | c :: t =>
      if (c =? 101) || (c =? 69) then
        let '(neg, t') :=
          match t with
          | sg :: u => if sg =? 45 then (true, u)
                       else if sg =? 43 then (false, u) else (false, t)
          | [] => (false, t)
          end in
        match take_digits t' with
        | ([], _) => None
        | (ds, r) =>
            let e := Z.of_N (digits_value ds) in
            Some (if neg then (- e)%Z else e, r)
        end
      else Some (0%Z, s)
  | [] => Some (0%Z, [])
  end.

Definition parse_number (s : jsstring) : parsed number :=
  let '(neg, s1) :=
    match s with
    | c :: t => if c =? 45 then (true, t) else (false, s)
    | [] => (false, s)
    end in
  match int_part s1 with
  | None => SyntaxError
  | Some (ids, s2) =>
      match frac_part s2 with
      | None => SyntaxError
      | Some (fds, s3) =>
          match exp_part s3 with
          | None => SyntaxError
          | Some (e, s4) =>
              Ok (mkNumber neg (digits_value (ids ++ fds))
                    (e - Z.of_nat (List.length fds))) s4
          end
      end
  end.

(** [strip_prefix p s] is what follows [p] at the head of [s]. *)
Fixpoint strip_prefix (p s : jsstring) : option jsstring :=
  match p, s with
  | [], _ => Some s
  | x :: p', y :: s' => if x =? y then strip_prefix p' s' else None
  | _ :: _, [] => None
  end.

Definition parse_literal (word : string) (v : JSValue) (s : jsstring) : parsed JSValue :=
  match strip_prefix (str word) s with
  | Some rest => Ok v rest
  | None => SyntaxError
  end.

(** Recursive descent over the JSON grammar.  [fuel] bounds the number of
    nested calls; [fuel_enough] below shows that the amount given by
    [parse] is never used up. *)
Fixpoint parse_value (fuel : nat) (s : jsstring) {struct fuel} : parsed JSValue :=
  match fuel with
  | O => OutOfFuel
  | S fuel' =>
      match skip_ws s with
      | [] => SyntaxError
      | c :: t =>
          if c =? 91 then                                   (* [ *)
            match skip_ws t with
            | c' :: r =>
                if c' =? 93 then Ok (JArray []) r
                else parse_elements fuel' t []
            | [] => SyntaxError
            end
          else if c =? 123 then                             (* { *)
            match skip_ws t with
            | c' :: r =>
                if c' =? 125 then Ok (JObject []) r
                else parse_members fuel' t []
            | [] => SyntaxError
            end
          else if c =? 34 then                              (* string *)
            match string_chars t with
            | Ok x rest => Ok (JString x) rest
            | SyntaxError => SyntaxError
            | OutOfFuel => OutOfFuel
            end
          else if c =? 116 then parse_literal "true" (JBool true) (c :: t)
          else if c =? 102 then parse_literal "false" (JBool false) (c :: t)
          else if c =? 110 then parse_literal "null" JNull (c :: t)
          else
            match parse_number (c :: t) with
            | Ok n rest => Ok (JNumber n) rest
            | SyntaxError => SyntaxError
            | OutOfFuel => OutOfFuel
            end
      end
  end

with parse_elements (fuel : nat) (s : jsstring) (acc : list JSValue)
       {struct fuel} : parsed JSValue :=
  match fuel with
  | O => OutOfFuel
  | S fuel' =>
      match parse_value fuel' s with
      | Ok v r =>
          match skip_ws r with
          | c :: r' =>
              if c =? 44 then parse_elements fuel' r' (acc ++ [v])
              else if c =? 93 then Ok (JArray (acc ++ [v])) r'
              else SyntaxError
          | [] => SyntaxError
          end
      | SyntaxError => SyntaxError
      | OutOfFuel => OutOfFuel
      end
  end

with parse_members (fuel : nat) (s : jsstring) (acc : list (jsstring * JSValue))
       {struct fuel} : parsed JSValue :=
  match fuel with
  | O => OutOfFuel
  | S fuel' =>
      match skip_ws s with
      | q :: t =>
          if q =? 34 then
            match string_chars t with
            | Ok k r =>
                match skip_ws r with
                | colon :: r1 =>
                    if colon =? 58 then
                      match parse_value fuel' r1 with
                      | Ok v r2 =>
                          match skip_ws r2 with
                          | c :: r3 =>
                              if c =? 44 then parse_members fuel' r3 (set_prop acc k v)
                              else if c =? 125 then Ok (JObject (set_prop acc k v)) r3
                              else SyntaxError
                          | [] => SyntaxError
                          end
                      | SyntaxError => SyntaxError
                      | OutOfFuel => OutOfFuel
                      end
                    else SyntaxError
                | [] => SyntaxError
                end
            | SyntaxError => SyntaxError
            | OutOfFuel => OutOfFuel
            end
          else SyntaxError
      | [] => SyntaxError
      end
  end.

Definition fuel_for (s : jsstring) : nat := 2 * List.length s + 2.

(** A JSON text is one value between white space. *)
Definition parse_text (fuel : nat) (s : jsstring) : parsed JSValue :=
  match parse_value fuel s with
  | Ok v r =>
      match skip_ws r with
      | [] => Ok v []
      | _ :: _ => SyntaxError
      end
  | other => other
  end.

(** [JSON.parse(s)]: the value, or [None] when the call throws. *)
Definition parse (s : jsstring) : option JSValue :=
  match parse_text (fuel_for s) s with
  | Ok v _ => Some v
  | _ => None
  end.

(** [consumed s r]: [r] is what is left of [s] after a non-empty prefix. *)
Definition consumed (s r : jsstring) : Prop :=
  exists p, s = p ++ r /\ p <> [].

Definition is_array (v : JSValue) : Prop :=
  match v with JArray _ => True | _ => False end.

(** [bracketed s r]: up to [r], the text [s] holds an opening bracket and,
    as its last character, a closing bracket. *)
Definition bracketed (s r : jsstring) : Prop :=
  exists a b, s = a ++ 91 :: b ++ 93 :: r.

End Json.

(* ===================================================================== *)
(** ** The built-ins the handler applies to the AI answer *)
(* ===================================================================== *)

Definition is_empty (s : jsstring) : bool :=
  match s with [] => true | _ :: _ => false end.

(** A parsed number is the zero of binary64 when its mantissa is 0 or its
    decimal value is at most [2^-1075], half the least subnormal (round to
    nearest, ties to even). *)
Definition number_is_zero (n : number) : bool :=
  (num_mant n =? 0)
  || ((num_exp n <? 0)%Z
      && (Z.of_N (num_mant n) * 2 ^ 1075 <=? 10 ^ (- num_exp n))%Z).

(** [ToBoolean].  [None] stands for [undefined]. *)
Definition truthy (v : option JSValue) : bool :=
  match v with
  | None => false
  | Some JNull => false
  | Some (JBool b) => b
  | Some (JNumber n) => negb (number_is_zero n)
  | Some (JString s) => negb (is_empty s)
  | Some (JArray _) => true
  | Some (JObject _) => true
  end.

(** [a || d]. *)
Definition or_else (a : option JSValue) (d : JSValue) : JSValue :=
  match a with
  | Some v => if truthy a then v else d
  | None => d
  end.

(** [v.name] on a value that is neither [null] nor [undefined], for a
    [name] that is no built-in property ([choices], [message] and
    [content] are none): an own property of an object, [undefined]
    otherwise. *)
Definition member (v : JSValue) (name : jsstring) : option JSValue :=
  match v with
  | JObject props => lookup name props
  | _ => None
  end.

(** [v[0]] on a value that is neither [null] nor [undefined]: the first
    element of an array, the first code unit of a string, the property
    named 0 of an object. *)
Definition index0 (v : JSValue) : option JSValue :=
  match v with
  | JObject props => lookup (str "0") props
  | JArray elems => nth_error elems 0
  | JString s => option_map (fun c => JString [c]) (nth_error s 0)
  | _ => None
  end.

(** [o?.name] and [o?.[0]]: [undefined] when [o] is [null] or
    [undefined]. *)
Definition opt_member (o : option JSValue) (name : jsstring) : option JSValue :=
  match o with
  | None | Some JNull => None
  | Some v => member v name
  end.

Definition opt_index0 (o : option JSValue) : option JSValue :=
  match o with
  | None | Some JNull => None
  | Some v => index0 v
  end.

(** [o.name] without the question mark: reading a property of [null]
    throws a TypeError (the outer [None]). *)
Definition strict_member (o : JSValue) (name : jsstring) : option (option JSValue) :=
  match o with
  | JNull => None
  | v => Some (member v name)
  end.

(** The longest prefix of [s] that ends in a closing bracket. *)
Fixpoint upto_last_close (s : jsstring) : option jsstring :=
  match s with
  | [] => None
  | c :: t =>
      match upto_last_close t with
      | Some p => Some (c :: p)
      | None => if c =? 93 then Some [c] else None
      end
  end.

(** [s.match(/\[[\s\S]*\]/)]: the matched text [jsonMatch[0]], or [None]
    for [null].  The leftmost opening bracket that some closing bracket
    follows starts the match, the star is greedy and runs to the last
    closing bracket. *)
Fixpoint match_brackets (s : jsstring) : option jsstring :=
  match s with
  | [] => None
  | c :: t =>
      if c =? 91 then
        match upto_last_close t with
        | Some p => Some (c :: p)
        | None => match_brackets t
        end
      else match_brackets t
  end.

(** [s.replace(pat, '')] with a string pattern: the first occurrence of
    [pat] is removed. *)
Fixpoint remove_first (pat s : jsstring) {struct s} : jsstring :=
  match Json.strip_prefix pat s with
  | Some rest => rest
  | None =>
      match s with
      | [] => []
      | c :: t => c :: remove_first pat t
      end
  end.

(** An integer in a template literal: its decimal digits (integers below
    [10^21] in absolute value, which every time value is). *)
Definition number_to_string (z : Z) : jsstring :=
  str (DecimalString.NilZero.string_of_int (Z.to_int z)).

(** A possibly undefined string in a template literal. *)
Definition template (s : option jsstring) : jsstring :=
  match s with
  | Some x => x
  | None => str "undefined"
  end.

(** [JSON.stringify] leaves out the properties whose value is
    [undefined]; this is the document that is written. *)
Fixpoint json_object (fields : list (jsstring * option JSValue))
  : list (jsstring * JSValue) :=
  match fields with
  | [] => []
  | (k, Some v) :: rest => (k, v) :: json_object rest
  | (_, None) :: rest => json_object rest
  end.

(** Lines 154-161: the detection the handler falls back to. *)
Definition fallback : JSValue :=
  JArray
    [JObject
       [(str "label", JString (str "Thermal Object"));
        (str "confidence", num_dec 85 (-2));
        (str "bbox",
         JObject [(str "x", num_int 25); (str "y", num_int 30);
                  (str "width", num_int 40); (str "height", num_int 35)]);
        (str "temperature", JString (str "hot"))]].

(** Line 143, [aiData.choices?.[0]?.message?.content]: the outer [None]
    is the TypeError of reading [choices] of [null], the inner one is
    [undefined]. *)
Definition message_content (aiData : JSValue) : option (option JSValue) :=
  match strict_member aiData (str "choices") with
  | None => None
  | Some choices =>
      Some (opt_member (opt_member (opt_index0 choices) (str "message"))
              (str "content"))
  end.

(** Lines 145-150: the text given to [JSON.parse]. *)
Definition json_text (content : jsstring) : jsstring :=
  match match_brackets content with
  | Some jsonMatch0 => jsonMatch0
  | None => content
  end.

(** Lines 143-150, the body of the inner [try]: [None] when it throws.
    A [content] that is no string has no [match] method. *)
Definition extract (aiData : JSValue) : option JSValue :=
  match message_content aiData with
  | None => None
  | Some c =>
      match or_else c (JString (str "[]")) with
      | JString content => Json.parse (json_text content)
      | _ => None
      end
  end.

(** Lines 141-162: [detections] after the inner [try]/[catch]. *)
Definition parse_detections (aiData : JSValue) : JSValue :=
  match extract aiData with
  | Some detections => detections
  | None => fallback
  end.

(* ===================================================================== *)
(** ** Requests, collaborators and responses *)
(* ===================================================================== *)

Local Open Scope Z_scope.

(** What a [throw] carries: an [Error] with its message, or another
    value. *)
Inductive Thrown : Type :=
| ErrorObject (message : jsstring)
| NotAnError.

(** How an awaited operation ends. *)
Inductive Completion (A : Type) : Type :=
| Returned (a : A)
| Threw (e : Thrown).
Arguments Returned {A} a.
Arguments Threw {A} e.

Record User := { user_id : jsstring }.

Record File := {
  file_name : jsstring;
  file_type : jsstring;
  file_bytes : list N
}.

(** A form field is a file or a string. *)
Inductive FormDataEntryValue : Type :=
| EntryFile (f : File)
| EntryString (s : jsstring).

Definition FormData := list (jsstring * FormDataEntryValue).

(** [formData.get(name)]: the first entry of that name, or [null]. *)
Fixpoint form_get (name : jsstring) (fd : FormData) : option FormDataEntryValue :=
  match fd with
  | [] => None
  | (k, v) :: rest => if jsstring_eqb name k then Some v else form_get name rest
  end.

(** [!file] is false for a file and for a string that is not empty. *)
Definition entry_truthy (e : FormDataEntryValue) : bool :=
  match e with
  | EntryFile _ => true
  | EntryString s => negb (is_empty s)
  end.

(** [file.name] and [file.type]: [undefined] on a string. *)
Definition entry_name (e : FormDataEntryValue) : option jsstring :=
  match e with
  | EntryFile f => Some (file_name f)
  | EntryString _ => None
  end.

Definition entry_type (e : FormDataEntryValue) : option jsstring :=
  match e with
  | EntryFile f => Some (file_type f)
  | EntryString _ => None
  end.

Record Request := {
  method : jsstring;
  authorization : option jsstring;      (* req.headers.get('authorization') *)
  formData : Completion FormData        (* await req.formData() *)
}.

Record Response := {
  status : Z;
  headers : list (jsstring * jsstring);
  body : option JSValue                 (* the document given to JSON.stringify *)
}.

(** [{ data: { user }, error }] of [auth.getUser]. *)
Record AuthResponse := {
  auth_user : option User;
  auth_error : option jsstring
}.

(** [{ data, error }] of [storage.upload]: one of the two is set. *)
Inductive UploadResponse : Type :=
| UploadData (path : jsstring)
| UploadError (message : jsstring).

(** [{ data, error }] of [insert(...).select().single()]. *)
Inductive InsertResponse : Type :=
| InsertedRow (id created_at : JSValue)
| InsertError (message : jsstring).

(** [{ data, error }] of [createSignedUrl]. *)
Inductive SignResponse : Type :=
| SignedUrl (signedUrl : jsstring)
| SignError (message : jsstring).

Record FileOptions := { contentType : option jsstring; upsert : bool }.

Record FetchInit := {
  fetch_url : jsstring;
  fetch_method : jsstring;
  fetch_headers : list (jsstring * jsstring);
  fetch_body : JSValue                  (* the document given to JSON.stringify *)
}.

(** The answer of the AI gateway. *)
Record AiResponse := {
  ai_status : Z;
  ai_text : Completion jsstring;        (* await aiResponse.text() *)
  ai_json : Completion JSValue          (* await aiResponse.json() *)
}.

(** [aiResponse.ok]: a status from 200 to 299. *)
Definition ok (r : AiResponse) : bool :=
  (200 <=? ai_status r) && (ai_status r <=? 299).

Record DetectionRecord := {
  rec_user_id : jsstring;
  rec_image_path : jsstring;
  rec_detections : JSValue
}.

(** The calls the collaborators offer.  [CallRemove], the delete of the
    object store, is among them; the handler has no use of it. *)
Inductive Call : Type :=
| CallGetUser (token : jsstring)
| CallUpload (bucket key : jsstring) (fileBody : FormDataEntryValue) (opts : FileOptions)
| CallFetch (init : FetchInit)
| CallInsert (table : jsstring) (row : DetectionRecord)
| CallCreateSignedUrl (bucket path : jsstring) (expiresIn : Z)
| CallRemove (bucket : jsstring) (paths : list jsstring).

(** What lies outside the handler: the configuration, the clock, the
    engine and the answers of the collaborators. *)
Record World := {
  env_get : jsstring -> option jsstring;                   (* Deno.env.get *)
  createClient : option jsstring -> option jsstring -> Completion unit;
  date_now : Z;                                            (* Date.now() *)
  base64 : list N -> Completion jsstring;
    (* file.arrayBuffer(), then btoa(String.fromCharCode(...bytes)) *)
  not_a_function : jsstring;
    (* the message of the engine's TypeError for calling a missing method *)
  auth_getUser : jsstring -> Completion AuthResponse;
  storage_upload :
    jsstring -> jsstring -> FormDataEntryValue -> FileOptions -> Completion UploadResponse;
  fetch : FetchInit -> Completion AiResponse;
  db_insert : jsstring -> DetectionRecord -> Completion InsertResponse;
  storage_createSignedUrl : jsstring -> jsstring -> Z -> Completion SignResponse
}.

(* ===================================================================== *)
(** ** The handler's monad: a trace of calls, and exceptions *)
(* ===================================================================== *)

Definition M (A : Type) : Type := list Call -> Completion A * list Call.

Definition ret {A} (a : A) : M A := fun tr => (Returned a, tr).

Definition bind {A B} (m : M A) (k : A -> M B) : M B :=
  fun tr =>
    match m tr with
    | (Returned a, tr') => k a tr'
    | (Threw e, tr') => (Threw e, tr')
    end.

(** A call to a collaborator: it is recorded, then answered. *)
Definition await {A} (c : Call) (answer : Completion A) : M A :=
  fun tr => (answer, tr ++ [c]).

(** An operation of the platform that may throw. *)
Definition platform {A} (answer : Completion A) : M A :=
  fun tr => (answer, tr).

Definition try_catch {A} (body : M A) (handler : Thrown -> M A) : M A :=
  fun tr =>
    match body tr with
    | (Returned a, tr') => (Returned a, tr')
    | (Threw e, tr') => handler e tr'
    end.

Notation "x <- m ;; k" := (bind m (fun x => k))
  (at level 61, m at next level, right associativity).

(* ===================================================================== *)
(** ** The handler *)
(* ===================================================================== *)

(** Lines 4-7. *)
Definition corsHeaders : list (jsstring * jsstring) :=
  [(str "Access-Control-Allow-Origin", str "*");
   (str "Access-Control-Allow-Headers",
    str "authorization, x-client-info, apikey, content-type")].

(** [new Response(JSON.stringify(doc), { status, headers: { ...corsHeaders,
    'Content-Type': 'application/json' } })]. *)
Definition json_response (st : Z) (doc : JSValue) : Response :=
  {| status := st;
     headers := corsHeaders ++ [(str "Content-Type", str "application/json")];
     body := Some doc |}.

Definition error_response (st : Z) (message : string) : Response :=
  json_response st (JObject [(str "error", JString (str message))]).

(** Line 11. *)
Definition preflight_response : Response :=
  {| status := 200; headers := corsHeaders; body := None |}.

(** Lines 207-213. *)
Definition internal_error (e : Thrown) : Response :=
  json_response 500
    (JObject
       [(str "error",
         JString match e with
                 | ErrorObject message => message
                 | NotAnError => str "Internal server error"
                 end)]).

(** Line 92. *)
Definition system_prompt : jsstring :=
  str "You are a thermal image analysis AI specialized in object detection. Analyze thermal images and identify objects, their locations, and temperature characteristics. Return detections in JSON format with: label (object name), confidence (0-1), bbox (x, y, width, height as percentages), and temperature (hot/warm/cool/cold).".

(** Line 99. *)
Definition user_prompt : jsstring :=
  js "Analyze this thermal image and detect all objects. Return ONLY a JSON array of detections with this structure: [{'label': 'object name', 'confidence': 0.95, 'bbox': {'x': 10, 'y': 20, 'width': 30, 'height': 40}, 'temperature': 'hot'}]".

(** Lines 81-112: the request sent to the AI gateway. *)
Definition ai_request (lovableApiKey : option jsstring) (dataUrl : jsstring) : FetchInit :=
  {| fetch_url := str "https://ai.gateway.lovable.dev/v1/chat/completions";
     fetch_method := str "POST";
     fetch_headers :=
       [(str "Authorization", str "Bearer " ++ template lovableApiKey);
        (str "Content-Type", str "application/json")];
     fetch_body :=
       JObject
         [(str "model", JString (str "google/gemini-2.5-flash"));
          (str "messages",
           JArray
             [JObject [(str "role", JString (str "system"));
                       (str "content", JString system_prompt)];
              JObject
                [(str "role", JString (str "user"));
                 (str "content",
                  JArray
                    [JObject [(str "type", JString (str "text"));
                              (str "text", JString user_prompt)];
                     JObject [(str "type", JString (str "image_url"));
                              (str "image_url",
                               JObject [(str "url", JString dataUrl)])]])]]);
          (str "temperature", num_dec 3 (-1))] |}.

(** Line 32. *)
Definition token_of (authHeader : jsstring) : jsstring :=
  remove_first (str "Bearer ") authHeader.

(** Line 56. *)
Definition storage_key (user : User) (now : Z) (file : FormDataEntryValue) : jsstring :=
  user_id user ++ str "/" ++ number_to_string now ++ str "_" ++ template (entry_name file).

(** Lines 59-62. *)
Definition upload_options (file : FormDataEntryValue) : FileOptions :=
  {| contentType := entry_type file; upsert := false |}.

(** Line 77. *)
Definition data_url (file : File) (base64Image : jsstring) : jsstring :=
  str "data:" ++ file_type file ++ str ";base64," ++ base64Image.

(** Lines 169-173. *)
Definition new_record (user : User) (path : jsstring) (detections : JSValue)
  : DetectionRecord :=
  {| rec_user_id := user_id user;
     rec_image_path := path;
     rec_detections := detections |}.

(** Lines 193-198. *)
Definition success_body (id : JSValue) (image_url : option jsstring)
    (detections created_at : JSValue) : JSValue :=
  JObject
    (json_object
       [(str "id", Some id);
        (str "image_url", option_map JString image_url);
        (str "detections", Some detections);
        (str "created_at", Some created_at)]).

Definition bucket : jsstring := str "thermal-images".

Section Handler.

Variable w : World.

(** Lines 75-76.  A string has no [arrayBuffer] method. *)
Definition encode (file : FormDataEntryValue) : M (File * jsstring) :=
  match file with
  | EntryFile f => b <- platform (base64 w (file_bytes f)) ;; ret (f, b)
  | EntryString _ => platform (Threw (ErrorObject (not_a_function w)))
  end.

(** Lines 166-203. *)
Definition save_and_respond (user : User) (path : jsstring) (detections : JSValue)
  : M Response :=
  let row := new_record user path detections in
  ins <- await (CallInsert (str "detections") row)
               (db_insert w (str "detections") row) ;;
  match ins with
  | InsertError _ => ret (error_response 500 "Failed to save detection results")
  | InsertedRow id created_at =>
      sg <- await (CallCreateSignedUrl bucket path 3600)
                  (storage_createSignedUrl w bucket path 3600) ;;
      let image_url :=
        match sg with
        | SignedUrl u => Some u
        | SignError _ => None
        end in
      ret (json_response 200 (success_body id image_url detections created_at))
  end.

(** Lines 114-136. *)
Definition ai_failure (aiResponse : AiResponse) : M Response :=
  _ <- platform (ai_text aiResponse) ;;
  if ai_status aiResponse =? 429 then
    ret (error_response 429 "Rate limit exceeded. Please try again later.")
  else if ai_status aiResponse =? 402 then
    ret (error_response 402 "AI credits exhausted. Please add credits to continue.")
  else ret (error_response 500 "Failed to analyze image").

(** Lines 53-203. *)
Definition process (lovableApiKey : option jsstring) (user : User)
    (file : FormDataEntryValue) : M Response :=
  let fileName := storage_key user (date_now w) file in
  up <- await (CallUpload bucket fileName file (upload_options file))
              (storage_upload w bucket fileName file (upload_options file)) ;;
  match up with
  | UploadError _ => ret (error_response 500 "Failed to upload image")
  | UploadData path =>
      fb <- encode file ;;
      let '(f, base64Image) := fb in
      let init := ai_request lovableApiKey (data_url f base64Image) in
      aiResponse <- await (CallFetch init) (fetch w init) ;;
      if negb (ok aiResponse) then ai_failure aiResponse
      else
        aiData <- platform (ai_json aiResponse) ;;
        save_and_respond user path (parse_detections aiData)
  end.

(** Lines 15-203, the body of the outer [try]. *)
Definition guarded (req : Request) : M Response :=
  let supabaseUrl := env_get w (str "SUPABASE_URL") in
  let supabaseKey := env_get w (str "SUPABASE_SERVICE_ROLE_KEY") in
  let lovableApiKey := env_get w (str "LOVABLE_API_KEY") in
  _ <- platform (createClient w supabaseUrl supabaseKey) ;;
  match authorization req with
  | None => ret (error_response 401 "Missing authorization header")
  | Some authHeader =>
      if is_empty authHeader then
        ret (error_response 401 "Missing authorization header")
      else
        auth <- await (CallGetUser (token_of authHeader))
                      (auth_getUser w (token_of authHeader)) ;;
        match auth_error auth, auth_user auth with
        | None, Some user =>
            fd <- platform (formData req) ;;
            match form_get (str "image") fd with
            | None => ret (error_response 400 "No image file provided")
            | Some file =>
                if entry_truthy file then process lovableApiKey user file
                else ret (error_response 400 "No image file provided")
            end
        | _, _ => ret (error_response 401 "Unauthorized")
        end
  end.

(** Lines 9-215. *)
Definition handle (req : Request) : M Response :=
  if jsstring_eqb (method req) (str "OPTIONS") then ret preflight_response
  else try_catch (guarded req) (fun e => ret (internal_error e)).

(** One invocation: the response and the calls issued, in order. *)
Definition serve (req : Request) : Completion Response * list Call :=
  handle req [].

End Handler.

Arguments str : simpl never.
Arguments js : simpl never.

(* ===================================================================== *)
(** ** Runs of the handler *)
(* ===================================================================== *)

(** The client is built: the configuration is in place. *)
Definition configured (w : World) : Prop :=
  createClient w (env_get w (str "SUPABASE_URL"))
    (env_get w (str "SUPABASE_SERVICE_ROLE_KEY")) = Returned tt.

(** The request is no preflight, carries the header [authHeader], and the
    verifier resolves its token to [user]. *)
Definition authenticated (w : World) (req : Request) (authHeader : jsstring)
    (user : User) : Prop :=
  jsstring_eqb (method req) (str "OPTIONS") = false
  /\ configured w
  /\ authorization req = Some authHeader
  /\ is_empty authHeader = false
  /\ auth_getUser w (token_of authHeader)
     = Returned {| auth_user := Some user; auth_error := None |}.

(** The values of one run, up to the answer of the AI gateway. *)
Record Run := {
  run_header : jsstring;       (* authHeader *)
  run_user : User;             (* user *)
  run_form : FormData;         (* formData *)
  run_file : File;             (* file *)
  run_path : jsstring;         (* uploadData.path *)
  run_base64 : jsstring;       (* base64Image *)
  run_ai : AiResponse          (* aiResponse *)
}.

Definition run_key (w : World) (r : Run) : jsstring :=
  storage_key (run_user r) (date_now w) (EntryFile (run_file r)).

Definition run_init (w : World) (r : Run) : FetchInit :=
  ai_request (env_get w (str "LOVABLE_API_KEY"))
    (data_url (run_file r) (run_base64 r)).

(** The request is authenticated, carries an image file, the upload
    succeeds and the AI gateway answers. *)
Definition ai_answered (w : World) (req : Request) (r : Run) : Prop :=
  authenticated w req (run_header r) (run_user r)
  /\ formData req = Returned (run_form r)
  /\ form_get (str "image") (run_form r) = Some (EntryFile (run_file r))
  /\ storage_upload w bucket (run_key w r) (EntryFile (run_file r))
       (upload_options (EntryFile (run_file r)))
     = Returned (UploadData (run_path r))
  /\ base64 w (file_bytes (run_file r)) = Returned (run_base64 r)
  /\ fetch w (run_init w r) = Returned (run_ai r).

(** Moreover the AI gateway answers with a success status and the JSON
    document [aiData]. *)
Definition ai_succeeded (w : World) (req : Request) (r : Run) (aiData : JSValue)
  : Prop :=
  ai_answered w req r
  /\ ok (run_ai r) = true
  /\ ai_json (run_ai r) = Returned aiData.

(** The calls issued up to the AI call, in order. *)
Definition calls_to_ai (w : World) (r : Run) : list Call :=
  [CallGetUser (token_of (run_header r));
   CallUpload bucket (run_key w r) (EntryFile (run_file r))
     (upload_options (EntryFile (run_file r)));
   CallFetch (run_init w r)].

Definition call_insert (r : Run) (detections : JSValue) : Call :=
  CallInsert (str "detections") (new_record (run_user r) (run_path r) detections).

Definition call_sign (r : Run) : Call :=
  CallCreateSignedUrl bucket (run_path r) 3600.

(** The answer of the relational store to the insert of this run. *)
Definition insert_answer (w : World) (r : Run) (detections : JSValue)
  : Completion InsertResponse :=
  db_insert w (str "detections") (new_record (run_user r) (run_path r) detections).

(** The answer of the object store to the signing request of this run. *)
Definition sign_answer (w : World) (r : Run) : Completion SignResponse :=
  storage_createSignedUrl w bucket (run_path r) 3600.

Definition is_fetch (c : Call) : bool :=
  match c with CallFetch _ => true | _ => false end.

Definition is_insert (c : Call) : bool :=
  match c with CallInsert _ _ => true | _ => false end.

Definition is_upload (c : Call) : bool :=
  match c with CallUpload _ _ _ _ => true | _ => false end.

Definition is_remove (c : Call) : bool :=
  match c with CallRemove _ _ => true | _ => false end.

Definition count (p : Call -> bool) (tr : list Call) : nat :=
  List.length (filter p tr).

(** The store answers a successful upload with the key it was given. *)
Definition store_echoes (w : World) : Prop :=
  forall b key f o path,
    storage_upload w b key f o = Returned (UploadData path) -> path = key.

(** The first path segment of a key: what comes before its first
    solidus. *)
Fixpoint first_segment (key : jsstring) : jsstring :=
  match key with
  | [] => []
  | c :: t => if (c =? 47)%N then [] else c :: first_segment t
  end.









(** The content of the round-trip property. *)
Definition car_content : jsstring :=
  js "[{'label':'Car','confidence':0.9,'bbox':{'x':1,'y':2,'width':3,'height':4},'temperature':'warm'}]".

(** The array that content denotes. *)
Definition car_detections : JSValue :=
  JArray
    [JObject
       [(str "label", JString (str "Car"));
        (str "confidence", num_dec 9 (-1));
        (str "bbox",
         JObject [(str "x", num_int 1); (str "y", num_int 2);
                  (str "width", num_int 3); (str "height", num_int 4)]);
        (str "temperature", JString (str "warm"))]].

(** [signedUrl] of line 195: [undefined] when the signing failed. *)
Definition image_url_of (sg : SignResponse) : option jsstring :=
  match sg with
  | SignedUrl u => Some u
  | SignError _ => None
  end.

(* ===================================================================== *)
(** ** A concrete deployment *)
(* ===================================================================== *)

Module Demo.

Definition user : User := {| user_id := str "5f0c2b1e-8a41-4c69-9d0e-3b7a6c1d2e4f" |}.

Definition file : File :=
  {| file_name := str "scan.png";
     file_type := str "image/png";
     file_bytes := [137; 80; 78; 71]%N |}.

Definition authHeader : jsstring := str "Bearer token-1".

(** A POST with the bearer token and the form [form]. *)
Definition post (form : FormData) : Request :=
  {| method := str "POST";
     authorization := Some authHeader;
     formData := Returned form |}.

Definition request : Request := post [(str "image", EntryFile file)].

(** A deployment in which the verifier knows one token, the store accepts
    every upload under the key it is given, and the AI gateway, the
    relational store and the signing answer as given. *)
Definition world (ai : AiResponse) (ins : Completion InsertResponse)
    (sg : Completion SignResponse) : World :=
  {| env_get := fun name => Some (str "value");
     createClient := fun url key => Returned tt;
     date_now := 1700000000000;
     base64 := fun _ => Returned (str "iVBORw==");
     not_a_function := str "file.arrayBuffer is not a function";
     auth_getUser := fun token =>
       if jsstring_eqb token (str "token-1")
       then Returned {| auth_user := Some user; auth_error := None |}
       else Returned {| auth_user := None; auth_error := Some (str "invalid JWT") |};
     storage_upload := fun _ key _ _ => Returned (UploadData key);
     fetch := fun _ => Returned ai;
     db_insert := fun _ _ => ins;
     storage_createSignedUrl := fun _ _ _ => sg |}.

(** A chat completion whose first choice has the message content
    [content]. *)
Definition completion (content : JSValue) : JSValue :=
  JObject
    [(str "choices",
      JArray
        [JObject
           [(str "index", num_int 0);
            (str "message",
             JObject [(str "role", JString (str "assistant"));
                      (str "content", content)])]])].

Definition ai_ok (aiData : JSValue) : AiResponse :=
  {| ai_status := 200; ai_text := Returned []; ai_json := Returned aiData |}.

Definition ai_error (st : Z) : AiResponse :=
  {| ai_status := st;
     ai_text := Returned (str "upstream error");
     ai_json := Threw (ErrorObject (str "Unexpected token")) |}.

Definition inserted : Completion InsertResponse :=
  Returned (InsertedRow (JString (str "0d9e7a52-1c3b-4f6a-8e2d-5b4c3a2f1e0d"))
              (JString (str "2023-11-14T22:13:20+00:00"))).

Definition insert_failed : Completion InsertResponse :=
  Returned (InsertError (str "new row violates row-level security policy")).

Definition signed : Completion SignResponse :=
  Returned (SignedUrl (str "https://store.example/sign/scan.png?token=t")).

Definition sign_failed : Completion SignResponse :=
  Returned (SignError (str "Object not found")).

(** The run of [request] in [world ai _ _]. *)
Definition run (ai : AiResponse) : Run :=
  {| run_header := authHeader;
     run_user := user;
     run_form := [(str "image", EntryFile file)];
     run_file := file;
     run_path := storage_key user 1700000000000 (EntryFile file);
     run_base64 := str "iVBORw==";
     run_ai := ai |}.

End Demo.

(* ===================================================================== *)
(** ** What every run keeps *)
(* ===================================================================== *)

(** The collaborator operation behind a call. *)
Inductive CallKind : Type :=
| KGetUser | KUpload | KFetch | KInsert | KSign | KRemove.

Definition call_kind (c : Call) : CallKind :=
  match c with
  | CallGetUser _ => KGetUser
  | CallUpload _ _ _ _ => KUpload
  | CallFetch _ => KFetch
  | CallInsert _ _ => KInsert
  | CallCreateSignedUrl _ _ _ => KSign
  | CallRemove _ _ => KRemove
  end.

(** The order of the awaited collaborator calls in lines 31-190. *)
Definition pipeline : list CallKind :=
  [KGetUser; KUpload; KFetch; KInsert; KSign].

(** The statuses written in the source: the default 200 of line 11 and the
    [status] fields of lines 26, 39, 49, 68, 121, 128, 134, 181, 201, 210. *)
Definition statuses : list Z := [200; 400; 401; 402; 429; 500].

(** The verifier has resolved the token of the request to a user. *)
Definition resolved (w : World) (req : Request) : Prop :=
  exists authHeader user,
    authorization req = Some authHeader
    /\ is_empty authHeader = false
    /\ auth_getUser w (token_of authHeader)
       = Returned {| auth_user := Some user; auth_error := None |}.

(** What holds of the response and of the trace of every run. *)
Definition outcome_ok (w : World) (req : Request) (resp : Response)
    (tr : list Call) : Prop :=
  In (status resp) statuses
  /\ (exists rest, headers resp = corsHeaders ++ rest)
  /\ (body resp = None <-> jsstring_eqb (method req) (str "OPTIONS") = true)
  /\ (body resp <> None ->
      headers resp = corsHeaders ++ [(str "Content-Type", str "application/json")])
  /\ map call_kind tr = firstn (List.length tr) pipeline
  /\ count is_remove tr = 0%nat
  /\ ((1 < List.length tr)%nat -> resolved w req)
  /\ (jsstring_eqb (method req) (str "OPTIONS") = false ->
      status resp = 200 -> List.length tr = 5%nat).

(** [pat] occurs in [s]. *)
Definition occurs (pat s : jsstring) : Prop :=
  exists a b, s = a ++ pat ++ b.

(** [headers.get(name)] on the headers of a response (the names of the
    source are in one spelling). *)
Fixpoint header (name : jsstring) (hs : list (jsstring * jsstring)) : option jsstring :=
  match hs with
  | [] => None
  | (k, v) :: rest => if jsstring_eqb name k then Some v else header name rest
  end.

(* ===================================================================== *)
(** ** Further concrete deployments *)
(* ===================================================================== *)

Module Cases.

(** A deployment like [Demo.world], with the client construction, the API
    key, the answer of the store to an upload and the answer of the AI
    gateway as given. *)
Definition world (client : Completion unit) (apiKey : option jsstring)
    (up : jsstring -> Completion UploadResponse) (ai : Completion AiResponse)
  : World :=
  {| env_get := fun name =>
       if jsstring_eqb name (str "LOVABLE_API_KEY") then apiKey
       else Some (str "value");
     createClient := fun url key => client;
     date_now := 1700000000000;
     base64 := fun _ => Returned (str "iVBORw==");
     not_a_function := str "file.arrayBuffer is not a function";
     auth_getUser := fun token =>
       if jsstring_eqb token (str "token-1")
       then Returned {| auth_user := Some Demo.user; auth_error := None |}
       else Returned {| auth_user := None; auth_error := Some (str "invalid JWT") |};
     storage_upload := fun _ key _ _ => up key;
     fetch := fun _ => ai;
     db_insert := fun _ _ => Demo.inserted;
     storage_createSignedUrl := fun _ _ _ => Demo.signed |}.

Definition accept (key : jsstring) : Completion UploadResponse :=
  Returned (UploadData key).

Definition refuse (key : jsstring) : Completion UploadResponse :=
  Returned (UploadError (str "mime type text/plain is not supported")).

Definition missing_url : Completion unit :=
  Threw (ErrorObject (str "supabaseUrl is required.")).

(** The gateway answers 200 with a body that is no JSON. *)
Definition ai_html : AiResponse :=
  {| ai_status := 200;
     ai_text := Returned (str "<html>Bad gateway</html>");
     ai_json := Threw (ErrorObject (str "Unexpected token '<'")) |}.

(** The gateway answers 429 and its body cannot be read. *)
Definition ai_unreadable : AiResponse :=
  {| ai_status := 429;
     ai_text := Threw (ErrorObject (str "error reading a body from connection"));
     ai_json := Threw (ErrorObject (str "error reading a body from connection")) |}.

(** A store that answers every upload with a path of its own. *)
Definition misplace (key : jsstring) : Completion UploadResponse :=
  Returned (UploadData (str "someone-else/1_scan.png")).

(** A request with another token. *)
Definition stranger : Request :=
  {| method := str "POST";
     authorization := Some (str "Bearer token-2");
     formData := Returned [(str "image", EntryFile Demo.file)] |}.

(** A request whose body is no multipart form. *)
Definition no_form : Request :=
  {| method := str "POST";
     authorization := Some Demo.authHeader;
     formData := Threw (ErrorObject (str "Body can not be decoded as form data")) |}.

(** A preflight, without credentials. *)
Definition options : Request :=
  {| method := str "OPTIONS";
     authorization := None;
     formData := Threw (ErrorObject (str "Body can not be decoded as form data")) |}.

End Cases.

(* ===================================================================== *)
(** ** Proof steps *)
(* ===================================================================== *)

(** Equations between concatenations, up to associativity. *)
Ltac app_norm :=
  repeat (progress (rewrite <- ?app_assoc; simpl)); try reflexivity.

(** The two cases of a test on a code unit. *)
Ltac eqb_cases c k :=
  destruct (N.eqb_spec c k); [subst c | ].

(** One layer of the handler's monad. *)
Ltac unfold_monad :=
  unfold bind, await, platform, ret, try_catch; cbv beta.

Ltac unfold_monad_in H :=
  unfold bind, await, platform, ret, try_catch in H; cbv beta in H.

(** The handler goes on after an answer. *)
Ltac step H :=
  cbv beta iota zeta in H;
  cbn [auth_error auth_user negb app entry_truthy] in H.

(** A branch that answers with a status other than 200. *)
Ltac other_status H Hst :=
  step H; inversion H; subst; simpl in Hst; discriminate Hst.

(** The end of a branch: the response and the trace are at hand. *)
Ltac outcome :=
  eexists; eexists; split; [reflexivity | ];
  unfold outcome_ok;
  repeat match goal with
         | H : jsstring_eqb (method _) _ = _ |- _ => rewrite H
         end;
  split; [simpl; tauto | ];
  split; [first [now (exists []; rewrite app_nil_r) | eexists; reflexivity] | ];
  split; [split; intros Hx; first [reflexivity | discriminate Hx
                                  | simpl in Hx; discriminate Hx] | ];
  split; [intros Hb; first [reflexivity | exfalso; apply Hb; reflexivity] | ];
  split; [reflexivity | ];
  split; [reflexivity | ];
  split; [first [intros Hl; simpl in Hl; lia | intros _; unfold resolved; eauto] | ];
  intros Hpre Hst;
  first [discriminate Hpre | reflexivity | simpl in Hst; discriminate Hst].

Ltac go := cbv beta iota zeta; cbn [auth_error auth_user negb app entry_truthy].

(** The end of a branch whose status is not 400. *)
Ltac not_400 :=
  eexists; eexists; split; [reflexivity | ];
  split;
  [ split;
    [ intros Hs; simpl in Hs; discriminate Hs
    | intros [Hx | Hx]; discriminate Hx ]
  | split;
    [ intros Hs; simpl in Hs; discriminate Hs
    | intros _; eexists; eexists; split; [reflexivity | cbn [app]; reflexivity] ] ].

(** The end of a branch after the AI call. *)
Ltac after_ai := eexists; eexists; cbn [app]; reflexivity.

(* ===================================================================== *)
(** ** JSON.parse: what is consumed, and termination *)
(* ===================================================================== *)

Module JsonFacts.
Import Json.

Local Open Scope N_scope.


Lemma consumed_length s r : consumed s r -> (List.length r < List.length s)%nat.
Proof.
  intros (p & -> & Hp). rewrite length_app.
  destruct p; [congruence | simpl; lia].
Qed.

Lemma consumed_cons c s : consumed (c :: s) s.
Proof. exists [c]. split; [reflexivity | discriminate]. Qed.

Lemma consumed_step c s r : consumed s r -> consumed (c :: s) r.
Proof.
  intros (p & -> & _). exists (c :: p). split; [reflexivity | discriminate].
Qed.

Lemma consumed_trans s r q : consumed s r -> consumed r q -> consumed s q.
Proof.
  intros (p & -> & Hp) (p' & -> & _). exists (p ++ p').
  split; [now rewrite app_assoc | ].
  destruct p; [congruence | discriminate].
Qed.

Lemma skip_ws_split s : exists p, s = p ++ skip_ws s.
Proof.
  induction s as [| c t [p IH]]; simpl.
  - now exists [].
  - destruct (is_ws c).
    + exists (c :: p). simpl. now rewrite <- IH.
    + now exists [].
Qed.

Lemma skip_ws_length s : (List.length (skip_ws s) <= List.length s)%nat.
Proof.
  destruct (skip_ws_split s) as [p H]. rewrite H at 2.
  rewrite length_app. lia.
Qed.

(** What follows the white space of [s], consumed further, is consumed
    from [s]. *)
Lemma consumed_after_ws s r : consumed (skip_ws s) r -> consumed s r.
Proof.
  destruct (skip_ws_split s) as [p H]. intros (q & Hq & Hne).
  exists (p ++ q). split.
  - rewrite H at 1. rewrite Hq. now rewrite app_assoc.
  - destruct q; [congruence | ]. destruct p; discriminate.
Qed.

Lemma string_chars_consumed s x r :
  string_chars s = Ok x r -> consumed s r.
Proof.
  remember (List.length s) as n eqn:Hn.
  revert s x r Hn.
  induction n as [n IH] using lt_wf_ind.
  intros s x r Hn H. destruct s as [| c t]; [discriminate | ].
  simpl in H.
  destruct (c =? 34).
  { inversion H; subst. apply consumed_cons. }
  destruct (c =? 92).
  - destruct t as [| e t']; [discriminate | ].
    destruct (e =? 117).
    + destruct t' as [| h1 [| h2 [| h3 [| h4 t'']]]]; try discriminate.
      destruct (hex_val h1), (hex_val h2), (hex_val h3), (hex_val h4);
        try discriminate.
      destruct (string_chars t'') as [y rest | |] eqn:E; try discriminate.
      inversion H; subst.
      do 6 apply consumed_step.
      eapply (IH (List.length t'')); [simpl in *; lia | reflexivity | exact E].
    + destruct (escape e); [| discriminate].
      destruct (string_chars t') as [y rest | |] eqn:E; try discriminate.
      inversion H; subst.
      do 2 apply consumed_step.
      eapply (IH (List.length t')); [simpl in *; lia | reflexivity | exact E].
  - destruct (c <? 32); [discriminate | ].
    destruct (string_chars t) as [y rest | |] eqn:E; try discriminate.
    inversion H; subst.
    apply consumed_step.
    eapply (IH (List.length t)); [simpl in *; lia | reflexivity | exact E].
Qed.

Lemma string_chars_fuel s : string_chars s <> OutOfFuel.
Proof.
  remember (List.length s) as n eqn:Hn.
  revert s Hn.
  induction n as [n IH] using lt_wf_ind.
  intros s Hn. destruct s as [| c t]; [discriminate | ].
  simpl.
  destruct (c =? 34); [discriminate | ].
  destruct (c =? 92).
  - destruct t as [| e t']; [discriminate | ].
    destruct (e =? 117).
    + destruct t' as [| h1 [| h2 [| h3 [| h4 t'']]]]; try discriminate.
      destruct (hex_val h1), (hex_val h2), (hex_val h3), (hex_val h4);
        try discriminate.
      assert (Hr : string_chars t'' <> OutOfFuel)
        by (eapply (IH (List.length t'')); [simpl in *; lia | reflexivity]).
      destruct (string_chars t''); congruence.
    + destruct (escape e); [| discriminate].
      assert (Hr : string_chars t' <> OutOfFuel)
        by (eapply (IH (List.length t')); [simpl in *; lia | reflexivity]).
      destruct (string_chars t'); congruence.
  - destruct (c <? 32); [discriminate | ].
    assert (Hr : string_chars t <> OutOfFuel)
      by (eapply (IH (List.length t)); [simpl in *; lia | reflexivity]).
    destruct (string_chars t); congruence.
Qed.

Lemma take_digits_split s ds r :
  take_digits s = (ds, r) -> exists p, s = p ++ r.
Proof.
  revert ds r. induction s as [| c t IH]; simpl; intros ds r H.
  - inversion H. now exists [].
  - destruct (is_digit c).
    + destruct (take_digits t) as [ds' r'] eqn:E. inversion H; subst.
      destruct (IH _ _ eq_refl) as [p Hp]. exists (c :: p). simpl. now rewrite <- Hp.
    + inversion H. now exists [].
Qed.

Lemma consumed_then_split s r q :
  consumed s r -> (exists p, r = p ++ q) -> consumed s q.
Proof.
  intros (p & -> & Hp) (p' & ->). exists (p ++ p').
  split; [now rewrite app_assoc | ].
  destruct p; [congruence | discriminate].
Qed.

Lemma int_part_consumed s ds r : int_part s = Some (ds, r) -> consumed s r.
Proof.
  unfold int_part. destruct s as [| c t]; [discriminate | ].
  destruct (c =? 48).
  - intros H; inversion H; subst. apply consumed_cons.
  - destruct (is_digit c) eqn:D; [| discriminate].
    simpl. rewrite D. destruct (take_digits t) as [ds' r'] eqn:E.
    intros H; inversion H; subst.
    destruct (take_digits_split _ _ _ E) as [p Hp].
    exists (c :: p). split; [simpl; now rewrite <- Hp | discriminate].
Qed.

Lemma frac_part_split s ds r : frac_part s = Some (ds, r) -> exists p, s = p ++ r.
Proof.
  unfold frac_part. destruct s as [| c t].
  - intros H; inversion H. now exists [].
  - destruct (c =? 46).
    + destruct (take_digits t) as [[| d ds'] r'] eqn:E; [discriminate | ].
      intros H; inversion H; subst.
      destruct (take_digits_split _ _ _ E) as [p Hp].
      exists (c :: p). simpl. now rewrite <- Hp.
    + intros H; inversion H. now exists [].
Qed.

Lemma exp_part_split s e r : exp_part s = Some (e, r) -> exists p, s = p ++ r.
Proof.
  unfold exp_part. destruct s as [| c t].
  - intros H; inversion H. now exists [].
  - destruct ((c =? 101) || (c =? 69)).
    + assert (Hsign : forall neg t',
                 match t with
                 | sg :: u => if sg =? 45 then (true, u)
                              else if sg =? 43 then (false, u) else (false, t)
                 | [] => (false, t)
                 end = (neg, t') -> exists q, t = q ++ t').
      { intros neg t'. destruct t as [| sg u].
        - intros H; inversion H. now exists [].
        - destruct (sg =? 45); [intros H; inversion H; now exists [sg] | ].
          destruct (sg =? 43); intros H; inversion H;
            [now exists [sg] | now exists []]. }
      destruct (match t with
                | sg :: u => if sg =? 45 then (true, u)
                             else if sg =? 43 then (false, u) else (false, t)
                | [] => (false, t)
                end) as [neg t'] eqn:Es.
      destruct (Hsign _ _ eq_refl) as [q Hq].
      destruct (take_digits t') as [[| d ds'] r'] eqn:E; [discriminate | ].
      intros H; inversion H; subst.
      destruct (take_digits_split _ _ _ E) as [p Hp].
      exists (c :: q ++ p). simpl. rewrite <- app_assoc. now rewrite <- Hp.
    + intros H; inversion H. now exists [].
Qed.

Lemma parse_number_consumed s n r : parse_number s = Ok n r -> consumed s r.
Proof.
  unfold parse_number.
  destruct (match s with
            | c :: t => if c =? 45 then (true, t) else (false, s)
            | [] => (false, s)
            end) as [neg s1] eqn:Es.
  assert (Hs1 : exists q, s = q ++ s1).
  { destruct s as [| c t]; [inversion Es; now exists [] | ].
    destruct (c =? 45); inversion Es; [now exists [c] | now exists []]. }
  destruct (int_part s1) as [[ids s2] |] eqn:Ei; [| discriminate].
  destruct (frac_part s2) as [[fds s3] |] eqn:Ef; [| discriminate].
  destruct (exp_part s3) as [[e s4] |] eqn:Ee; [| discriminate].
  intros H; inversion H; subst.
  apply int_part_consumed in Ei. apply frac_part_split in Ef.
  apply exp_part_split in Ee.
  destruct Hs1 as [q Hq].
  assert (Hc : consumed s1 r)
    by (eapply consumed_then_split; [eapply consumed_then_split; eassumption | exact Ee]).
  destruct Hc as (p & Hp & Hne). exists (q ++ p).
  split; [rewrite Hq, Hp; now rewrite app_assoc | ].
  destruct p; [congruence | destruct q; discriminate].
Qed.

Lemma parse_number_fuel s : parse_number s <> OutOfFuel.
Proof.
  unfold parse_number.
  destruct (match s with
            | c :: t => if c =? 45 then (true, t) else (false, s)
            | [] => (false, s)
            end) as [neg s1].
  destruct (int_part s1) as [[ids s2] |]; [| discriminate].
  destruct (frac_part s2) as [[fds s3] |]; [| discriminate].
  destruct (exp_part s3) as [[e s4] |]; discriminate.
Qed.

Lemma strip_prefix_split p s r : strip_prefix p s = Some r -> s = p ++ r.
Proof.
  revert s. induction p as [| x p IH]; simpl; intros s H.
  - now inversion H.
  - destruct s as [| y s']; [discriminate | ].
    destruct (N.eqb_spec x y); [| discriminate].
    subst. f_equal. now apply IH.
Qed.

Lemma parse_literal_consumed word v s v' r :
  str word <> [] -> parse_literal word v s = Ok v' r -> consumed s r /\ v' = v.
Proof.
  unfold parse_literal. intros Hw.
  destruct (strip_prefix (str word) s) eqn:E; [| discriminate].
  intros H; inversion H; subst. split; [| reflexivity].
  exists (str word). split; [now apply strip_prefix_split | assumption].
Qed.

Lemma parse_literal_fuel word v s : parse_literal word v s <> OutOfFuel.
Proof. unfold parse_literal. destruct (strip_prefix (str word) s); discriminate. Qed.

Lemma bracketed_consumed s r : bracketed s r -> consumed s r.
Proof.
  intros (a & b & ->). exists (a ++ 91 :: b ++ [93]). split.
  - app_norm.
  - destruct a; discriminate.
Qed.

Lemma bracketed_after_ws s t r :
  skip_ws s = 91 :: t -> (exists b, t = b ++ 93 :: r) -> bracketed s r.
Proof.
  intros Hs [b ->]. destruct (skip_ws_split s) as [p Hp].
  exists p, b. now rewrite Hp at 1; rewrite Hs.
Qed.

Lemma ws_then_char r c r' : skip_ws r = c :: r' -> exists p, r = p ++ c :: r'.
Proof.
  intros H. destruct (skip_ws_split r) as [p Hp]. exists p. now rewrite <- H.
Qed.

(** What a successful parse has consumed, and the bracket pair behind
    every array. *)
Lemma parse_shape fuel :
  (forall s v r, parse_value fuel s = Ok v r ->
     consumed s r /\ (is_array v -> bracketed s r))
  /\ (forall s acc v r, parse_elements fuel s acc = Ok v r ->
        is_array v /\ exists b, s = b ++ 93 :: r)
  /\ (forall s acc v r, parse_members fuel s acc = Ok v r ->
        ~ is_array v /\ consumed s r).
Proof.
  induction fuel as [| fuel (IHv & IHe & IHm)].
  { repeat split; intros; discriminate. }
  split; [| split].
  - (* parse_value *)
    intros s v r H. simpl in H.
    destruct (skip_ws s) as [| c t] eqn:Es; [discriminate | ].
    assert (Hhead : forall q, consumed (c :: t) q -> consumed s q).
    { intros q Hq. apply consumed_after_ws. now rewrite Es. }
    eqb_cases c 91.
    { assert (Hb : bracketed s r).
      { destruct (skip_ws t) as [| c' r0] eqn:Et; [discriminate | ].
        eqb_cases c' 93.
        - inversion H; subst. eapply bracketed_after_ws; [exact Es | ].
          now apply ws_then_char.
        - apply IHe in H. eapply bracketed_after_ws; [exact Es | apply H]. }
      split; [now apply bracketed_consumed | trivial]. }
    eqb_cases c 123.
    { destruct (skip_ws t) as [| c' r0] eqn:Et; [discriminate | ].
      eqb_cases c' 125.
      - inversion H; subst. split; [| intros []].
        apply Hhead. apply consumed_step.
        destruct (ws_then_char _ _ _ Et) as [p ->].
        exists (p ++ [125]). split; [app_norm | ].
        destruct p; discriminate.
      - apply IHm in H. destruct H as [Hna Hc].
        split; [| intros Ha; now elim Hna].
        apply Hhead. now apply consumed_step. }
    eqb_cases c 34.
    { destruct (string_chars t) as [x rest | |] eqn:E; try discriminate.
      inversion H; subst. split; [| intros []].
      apply Hhead. apply consumed_step. eapply string_chars_consumed; eassumption. }
    eqb_cases c 116.
    { apply parse_literal_consumed in H; [| discriminate].
      destruct H as [Hc ->]. split; [now apply Hhead | intros []]. }
    eqb_cases c 102.
    { apply parse_literal_consumed in H; [| discriminate].
      destruct H as [Hc ->]. split; [now apply Hhead | intros []]. }
    eqb_cases c 110.
    { apply parse_literal_consumed in H; [| discriminate].
      destruct H as [Hc ->]. split; [now apply Hhead | intros []]. }
    destruct (parse_number (c :: t)) as [x rest | |] eqn:E; try discriminate.
    inversion H; subst. split; [| intros []].
    apply Hhead. eapply parse_number_consumed; eassumption.
  - (* parse_elements *)
    intros s acc v r H. simpl in H.
    destruct (parse_value fuel s) as [v1 r1 | |] eqn:E1; try discriminate.
    apply IHv in E1. destruct E1 as [(p & -> & _) _].
    destruct (skip_ws r1) as [| c r'] eqn:Er; [discriminate | ].
    destruct (ws_then_char _ _ _ Er) as [q ->].
    eqb_cases c 44.
    + apply IHe in H. destruct H as [Ha [b ->]]. split; [assumption | ].
      exists (p ++ q ++ 44 :: b). app_norm.
    + eqb_cases c 93; [| discriminate].
      inversion H; subst. split; [exact I | ].
      exists (p ++ q). app_norm.
  - (* parse_members *)
    intros s acc v r H. simpl in H.
    destruct (skip_ws s) as [| c t] eqn:Es; [discriminate | ].
    eqb_cases c 34; [| discriminate].
    destruct (string_chars t) as [k r0 | |] eqn:Ek; try discriminate.
    destruct (skip_ws r0) as [| colon r1] eqn:Er0; [discriminate | ].
    eqb_cases colon 58; [| discriminate].
    destruct (parse_value fuel r1) as [v1 r2 | |] eqn:E1; try discriminate.
    destruct (skip_ws r2) as [| c r3] eqn:Er2; [discriminate | ].
    assert (Hc : consumed s r3).
    { apply consumed_after_ws. rewrite Es. apply consumed_step.
      eapply consumed_trans; [eapply string_chars_consumed; eassumption | ].
      apply consumed_after_ws. rewrite Er0. apply consumed_step.
      apply IHv in E1. destruct E1 as [E1 _].
      eapply consumed_trans; [exact E1 | ].
      apply consumed_after_ws. rewrite Er2. apply consumed_cons. }
    eqb_cases c 44.
    + apply IHm in H. destruct H as [Hna Hc']. split; [assumption | ].
      eapply consumed_trans; eassumption.
    + eqb_cases c 125; [| discriminate].
      inversion H; subst. split; [intros [] | assumption].
Qed.

Lemma parse_value_consumed fuel s v r :
  parse_value fuel s = Ok v r -> (List.length r < List.length s)%nat.
Proof.
  intros H. apply consumed_length.
  destruct (parse_shape fuel) as [Hv _]. now apply Hv in H.
Qed.

Lemma skip_ws_char_length s c t :
  skip_ws s = c :: t -> (List.length t < List.length s)%nat.
Proof.
  intros H. pose proof (skip_ws_length s) as L. rewrite H in L. simpl in L. lia.
Qed.

(** The recursion never runs out of fuel when it is given twice the
    length of the text, and two. *)
Lemma fuel_enough_rec fuel :
  (forall s, (2 * List.length s + 2 <= fuel)%nat ->
     parse_value fuel s <> OutOfFuel)
  /\ (forall s acc, (2 * List.length s + 3 <= fuel)%nat ->
        parse_elements fuel s acc <> OutOfFuel)
  /\ (forall s acc, (2 * List.length s + 3 <= fuel)%nat ->
        parse_members fuel s acc <> OutOfFuel).
Proof.
  induction fuel as [| fuel (IHv & IHe & IHm)].
  { repeat split; intros; lia. }
  split; [| split].
  - intros s Hf. simpl.
    destruct (skip_ws s) as [| c t] eqn:Es; [discriminate | ].
    pose proof (skip_ws_char_length _ _ _ Es) as Lt.
    eqb_cases c 91.
    { destruct (skip_ws t) as [| c' r0]; [discriminate | ].
      destruct (c' =? 93); [discriminate | ]. apply IHe. lia. }
    eqb_cases c 123.
    { destruct (skip_ws t) as [| c' r0]; [discriminate | ].
      destruct (c' =? 125); [discriminate | ]. apply IHm. lia. }
    eqb_cases c 34.
    { pose proof (string_chars_fuel t).
      destruct (string_chars t); congruence. }
    eqb_cases c 116; [apply parse_literal_fuel | ].
    eqb_cases c 102; [apply parse_literal_fuel | ].
    eqb_cases c 110; [apply parse_literal_fuel | ].
    pose proof (parse_number_fuel (c :: t)).
    destruct (parse_number (c :: t)); congruence.
  - intros s acc Hf. simpl.
    assert (Hv : parse_value fuel s <> OutOfFuel) by (apply IHv; lia).
    destruct (parse_value fuel s) as [v1 r1 | |] eqn:E1; try congruence.
    apply parse_value_consumed in E1.
    destruct (skip_ws r1) as [| c r'] eqn:Er; [discriminate | ].
    pose proof (skip_ws_char_length _ _ _ Er) as Lr.
    destruct (c =? 44); [apply IHe; lia | ].
    destruct (c =? 93); discriminate.
  - intros s acc Hf. simpl.
    destruct (skip_ws s) as [| c t] eqn:Es; [discriminate | ].
    pose proof (skip_ws_char_length _ _ _ Es) as Lt.
    destruct (c =? 34); [| discriminate].
    pose proof (string_chars_fuel t) as Hk.
    destruct (string_chars t) as [k r0 | |] eqn:Ek; try congruence.
    apply string_chars_consumed, consumed_length in Ek.
    destruct (skip_ws r0) as [| colon r1] eqn:Er0; [discriminate | ].
    pose proof (skip_ws_char_length _ _ _ Er0) as Lr0.
    destruct (colon =? 58); [| discriminate].
    assert (Hv : parse_value fuel r1 <> OutOfFuel) by (apply IHv; lia).
    destruct (parse_value fuel r1) as [v1 r2 | |] eqn:E1; try congruence.
    apply parse_value_consumed in E1.
    destruct (skip_ws r2) as [| c' r3] eqn:Er2; [discriminate | ].
    pose proof (skip_ws_char_length _ _ _ Er2) as Lr2.
    destruct (c' =? 44); [apply IHm; lia | ].
    destruct (c' =? 125); discriminate.
Qed.

(** [JSON.parse] terminates: with the fuel [parse] gives it, the parser
    ends in a value or a syntax error. *)
Lemma fuel_enough s : parse_text (fuel_for s) s <> OutOfFuel.
Proof.
  unfold parse_text.
  assert (H : parse_value (fuel_for s) s <> OutOfFuel)
    by (apply (fuel_enough_rec (fuel_for s)); unfold fuel_for; lia).
  destruct (parse_value (fuel_for s) s) as [v r | |]; try congruence.
  destruct (skip_ws r); discriminate.
Qed.

(** More fuel does not change a result. *)
Lemma fuel_monotone fuel :
  (forall s res, parse_value fuel s = res -> res <> OutOfFuel ->
     forall fuel', (fuel <= fuel')%nat -> parse_value fuel' s = res)
  /\ (forall s acc res, parse_elements fuel s acc = res -> res <> OutOfFuel ->
        forall fuel', (fuel <= fuel')%nat -> parse_elements fuel' s acc = res)
  /\ (forall s acc res, parse_members fuel s acc = res -> res <> OutOfFuel ->
        forall fuel', (fuel <= fuel')%nat -> parse_members fuel' s acc = res).
Proof.
  induction fuel as [| fuel (IHv & IHe & IHm)].
  { repeat split; intros; simpl in *; congruence. }
  split; [| split].
  - intros s res H Hne [| fuel'] Hle; [lia | ]. simpl in H |- *.
    destruct (skip_ws s) as [| c t]; [exact H | ].
    destruct (c =? 91).
    { destruct (skip_ws t) as [| c' r0]; [exact H | ].
      destruct (c' =? 93); [exact H | ]. apply (IHe _ _ _ H Hne). lia. }
    destruct (c =? 123); [| exact H].
    destruct (skip_ws t) as [| c' r0]; [exact H | ].
    destruct (c' =? 125); [exact H | ]. apply (IHm _ _ _ H Hne). lia.
  - intros s acc res H Hne [| fuel'] Hle; [lia | ]. simpl in H |- *.
    destruct (parse_value fuel s) as [v1 r1 | |] eqn:E1.
    + rewrite (IHv _ _ E1) by (discriminate || lia).
      destruct (skip_ws r1) as [| c r']; [exact H | ].
      destruct (c =? 44); [| exact H]. apply (IHe _ _ _ H Hne). lia.
    + rewrite (IHv _ _ E1) by (discriminate || lia). exact H.
    + congruence.
  - intros s acc res H Hne [| fuel'] Hle; [lia | ]. simpl in H |- *.
    destruct (skip_ws s) as [| c t]; [exact H | ].
    destruct (c =? 34); [| exact H].
    destruct (string_chars t) as [k r0 | |]; try exact H.
    destruct (skip_ws r0) as [| colon r1]; [exact H | ].
    destruct (colon =? 58); [| exact H].
    destruct (parse_value fuel r1) as [v1 r2 | |] eqn:E1.
    + rewrite (IHv _ _ E1) by (discriminate || lia).
      destruct (skip_ws r2) as [| c' r3]; [exact H | ].
      destruct (c' =? 44); [| exact H]. apply (IHm _ _ _ H Hne). lia.
    + rewrite (IHv _ _ E1) by (discriminate || lia). exact H.
    + congruence.
Qed.

(** The result of [parse] does not depend on the amount of fuel, once
    there is enough. *)
Lemma fuel_irrelevant s fuel :
  (fuel_for s <= fuel)%nat -> parse_text fuel s = parse_text (fuel_for s) s.
Proof.
  intros Hle. unfold parse_text.
  assert (H : parse_value (fuel_for s) s <> OutOfFuel)
    by (apply (fuel_enough_rec (fuel_for s)); unfold fuel_for; lia).
  destruct (fuel_monotone (fuel_for s)) as [Hv _].
  now rewrite (Hv _ _ eq_refl H fuel Hle).
Qed.

(** [parse s = None] is a syntax error. *)
Lemma parse_None_iff s : parse s = None <-> parse_text (fuel_for s) s = SyntaxError.
Proof.
  unfold parse. pose proof (fuel_enough s) as H.
  destruct (parse_text (fuel_for s) s); split; congruence.
Qed.

(** A text that parses to an array holds a bracket pair. *)
Lemma parse_array_bracketed s l :
  parse s = Some (JArray l) -> exists a b c, s = a ++ 91 :: b ++ 93 :: c.
Proof.
  unfold parse, parse_text.
  destruct (parse_value (fuel_for s) s) as [v r | |] eqn:E; try discriminate.
  destruct (skip_ws r); [| discriminate].
  intros H; inversion H; subst.
  destruct (parse_shape (fuel_for s)) as [Hv _].
  apply Hv in E. destruct E as [_ Hb].
  destruct (Hb I) as (a & b & ->). now exists a, b, r.
Qed.

(** A text that starts with an opening bracket parses to an array, if it
    parses. *)
Lemma parse_bracket_array t v :
  parse (91 :: t) = Some v -> is_array v.
Proof.
  unfold parse, parse_text.
  destruct (parse_value (fuel_for (91 :: t)) (91 :: t)) as [v' r | |] eqn:E;
    try discriminate.
  destruct (skip_ws r); [| discriminate].
  intros H; inversion H; subst.
  unfold fuel_for in E. simpl in E.
  destruct (skip_ws t) as [| c' r0]; [discriminate | ].
  destruct (c' =? 93).
  - now inversion E.
  - destruct (parse_shape (List.length t + S (List.length t + 0) + 2)) as (_ & He & _).
    now apply He in E.
Qed.

End JsonFacts.

(* ===================================================================== *)
(** ** The pattern [/\[[\s\S]*\]/] *)
(* ===================================================================== *)

Local Open Scope N_scope.

(** [jsstring_eqb] is the strict equality of strings. *)
Lemma jsstring_eqb_eq a b : jsstring_eqb a b = true <-> a = b.
Proof.
  revert b. induction a as [| x a IH]; intros [| y b]; simpl;
    try (split; [discriminate | discriminate]); [split; reflexivity | ].
  rewrite andb_true_iff, N.eqb_eq, IH.
  split; [intros [-> ->]; reflexivity | intros H; inversion H; auto].
Qed.

Lemma upto_last_close_None s : upto_last_close s = None <-> ~ In 93 s.
Proof.
  induction s as [| c t IH]; simpl.
  - split; [intros _ [] | reflexivity].
  - destruct (upto_last_close t) as [p |].
    + split; [discriminate | ]. intros H. exfalso.
      assert (Ht : ~ In 93 t) by (intros Hin; apply H; now right).
      apply IH in Ht. discriminate.
    + destruct (N.eqb_spec c 93) as [-> | Hne].
      * split; [discriminate | ]. intros H. exfalso. apply H. now left.
      * split; [| reflexivity]. intros _ [Hc | Hin]; [congruence | ].
        now apply (proj1 IH).
Qed.

Lemma upto_last_close_Some s p :
  upto_last_close s = Some p ->
  exists mid post, p = mid ++ [93] /\ s = p ++ post /\ ~ In 93 post.
Proof.
  revert p. induction s as [| c t IH]; simpl; intros p H; [discriminate | ].
  destruct (upto_last_close t) as [p' |] eqn:E.
  - inversion H; subst. destruct (IH _ eq_refl) as (mid & post & -> & Ht & Hp).
    exists (c :: mid), post. repeat split; [| assumption].
    simpl. now rewrite <- Ht.
  - destruct (N.eqb_spec c 93) as [-> | Hne]; [| discriminate].
    inversion H; subst. exists [], t. repeat split.
    now apply upto_last_close_None.
Qed.

(** No match: no opening bracket is followed by a closing one. *)
Lemma match_brackets_None_iff s :
  match_brackets s = None <-> ~ exists a b c, s = a ++ 91 :: b ++ 93 :: c.
Proof.
  induction s as [| x t IH]; simpl.
  - split; [| reflexivity]. intros _ (a & b & c & H). destruct a; discriminate.
  - assert (Htail : (exists a b c, t = a ++ 91 :: b ++ 93 :: c) ->
                    exists a b c, x :: t = a ++ 91 :: b ++ 93 :: c).
    { intros (a & b & c & ->). now exists (x :: a), b, c. }
    destruct (N.eqb_spec x 91) as [-> | Hne].
    + destruct (upto_last_close t) as [p |] eqn:E.
      * split; [discriminate | ]. intros H. exfalso. apply H.
        destruct (upto_last_close_Some _ _ E) as (mid & post & -> & Ht & _).
        exists [], mid, post. simpl. rewrite Ht. now rewrite <- app_assoc.
      * rewrite IH. split; intros H (a & b & c & Heq); apply H.
        -- apply upto_last_close_None in E. exfalso. apply E.
           destruct a as [| y a]; simpl in Heq; inversion Heq; subst.
           ++ apply in_or_app. right. now left.
           ++ apply in_or_app. right. right. apply in_or_app. right. now left.
        -- apply Htail. now exists a, b, c.
    + rewrite IH. split; intros H (a & b & c & Heq); apply H.
      * destruct a as [| y a]; simpl in Heq; inversion Heq; subst; [congruence | ].
        now exists a, b, c.
      * apply Htail. now exists a, b, c.
Qed.

(** A match runs from the first opening bracket to the last closing
    bracket of the text. *)
Lemma match_brackets_Some s m :
  match_brackets s = Some m ->
  exists pre mid post,
    s = pre ++ m ++ post /\ m = 91 :: mid ++ [93]
    /\ ~ In 91 pre /\ ~ In 93 post.
Proof.
  revert m. induction s as [| x t IH]; simpl; intros m H; [discriminate | ].
  assert (Hskip : match_brackets t = Some m -> x <> 91 \/ upto_last_close t = None ->
                  exists pre mid post,
                    x :: t = pre ++ m ++ post /\ m = 91 :: mid ++ [93]
                    /\ ~ In 91 pre /\ ~ In 93 post).
  { intros Hm Hx. destruct (IH _ Hm) as (pre & mid & post & -> & -> & Hpre & Hpost).
    destruct Hx as [Hx | Hx].
    - exists (x :: pre), mid, post. repeat split; [| assumption].
      intros [Hc | Hin]; [congruence | contradiction].
    - exfalso. apply upto_last_close_None in Hx. apply Hx.
      apply in_or_app. right. simpl. right.
      apply in_or_app. left. apply in_or_app. right. now left. }
  destruct (N.eqb_spec x 91) as [-> | Hne].
  - destruct (upto_last_close t) as [p |] eqn:E.
    + inversion H; subst.
      destruct (upto_last_close_Some _ _ E) as (mid & post & -> & Ht & Hp).
      exists [], mid, post. repeat split; [| intros [] | assumption].
      simpl. now rewrite Ht at 1.
    + apply Hskip; [assumption | now right].
  - apply Hskip; [assumption | now left].
Qed.

(* ===================================================================== *)
(** ** The handler, step by step *)
(* ===================================================================== *)

Local Open Scope Z_scope.

(** An authenticated request reaches the form, after one call to the
    verifier. *)
Lemma serve_authenticated w req authHeader user :
  authenticated w req authHeader user ->
  serve w req
  = try_catch
      (fd <- platform (formData req) ;;
       match form_get (str "image") fd with
       | None => ret (error_response 400 "No image file provided")
       | Some file =>
           if entry_truthy file
           then process w (env_get w (str "LOVABLE_API_KEY")) user file
           else ret (error_response 400 "No image file provided")
       end)
      (fun e => ret (internal_error e))
      [CallGetUser (token_of authHeader)].
Proof.
  intros (Hm & Hc & Ha & He & Hu).
  unfold serve, handle. rewrite Hm.
  unfold guarded. unfold configured in Hc.
  unfold_monad. rewrite Hc, Ha, He, Hu. reflexivity.
Qed.

(** A preflight is answered at once. *)
Lemma preflight w req :
  method req = str "OPTIONS" ->
  serve w req = (Returned preflight_response, []).
Proof. intros Hm. unfold serve, handle. rewrite Hm. reflexivity. Qed.

(** A token the verifier does not resolve: status 401. *)
Lemma unauthorized w req authHeader auth :
  jsstring_eqb (method req) (str "OPTIONS") = false ->
  configured w ->
  authorization req = Some authHeader ->
  is_empty authHeader = false ->
  auth_getUser w (token_of authHeader) = Returned auth ->
  auth_error auth <> None \/ auth_user auth = None ->
  serve w req
  = (Returned (error_response 401 "Unauthorized"),
     [CallGetUser (token_of authHeader)]).
Proof.
  intros Hm Hc Ha He Hu Hbad. unfold serve, handle. rewrite Hm.
  unfold guarded. unfold configured in Hc.
  unfold_monad. rewrite Hc, Ha, He, Hu.
  destruct (auth_error auth), (auth_user auth); try reflexivity.
  destruct Hbad; congruence.
Qed.

(** What is thrown before the first answer reaches the outer [catch]. *)
Lemma not_configured w req e :
  jsstring_eqb (method req) (str "OPTIONS") = false ->
  createClient w (env_get w (str "SUPABASE_URL"))
    (env_get w (str "SUPABASE_SERVICE_ROLE_KEY")) = Threw e ->
  serve w req = (Returned (internal_error e), []).
Proof.
  intros Hm Hc. unfold serve, handle. rewrite Hm.
  unfold guarded. unfold_monad. rewrite Hc. reflexivity.
Qed.

(** When the AI gateway has answered, three calls have been issued. *)
Lemma serve_ai_answered w req r :
  ai_answered w req r ->
  serve w req
  = try_catch
      (if negb (ok (run_ai r)) then ai_failure (run_ai r)
       else
         aiData <- platform (ai_json (run_ai r)) ;;
         save_and_respond w (run_user r) (run_path r) (parse_detections aiData))
      (fun e => ret (internal_error e))
      (calls_to_ai w r).
Proof.
  intros (Hauth & Hf & Hg & Hu & Hb & Hai).
  rewrite (serve_authenticated _ _ _ _ Hauth).
  unfold_monad. rewrite Hf, Hg. simpl entry_truthy. cbv iota.
  unfold process, encode. unfold_monad.
  fold (run_key w r). cbn [app]. rewrite Hu, Hb.
  fold (run_init w r). rewrite Hai. reflexivity.
Qed.

(** After a successful AI answer the record is inserted; the response
    follows the answers to the insert and to the signing request. *)
Lemma serve_ai_succeeded w req r aiData :
  ai_succeeded w req r aiData ->
  serve w req
  = match insert_answer w r (parse_detections aiData) with
    | Threw e =>
        (Returned (internal_error e),
         calls_to_ai w r ++ [call_insert r (parse_detections aiData)])
    | Returned (InsertError _) =>
        (Returned (error_response 500 "Failed to save detection results"),
         calls_to_ai w r ++ [call_insert r (parse_detections aiData)])
    | Returned (InsertedRow id created_at) =>
        let tr := calls_to_ai w r
                  ++ [call_insert r (parse_detections aiData); call_sign r] in
        match sign_answer w r with
        | Threw e => (Returned (internal_error e), tr)
        | Returned sg =>
            (Returned
               (json_response 200
                  (success_body id (image_url_of sg)
                     (parse_detections aiData) created_at)),
             tr)
        end
    end.
Proof.
  intros (Hai & Hok & Hj).
  rewrite (serve_ai_answered _ _ _ Hai). rewrite Hok. simpl negb. cbv iota.
  unfold save_and_respond, insert_answer, sign_answer, call_insert, call_sign.
  unfold_monad. rewrite Hj.
  destruct (db_insert w (str "detections")
              (new_record (run_user r) (run_path r) (parse_detections aiData)))
    as [[id created_at | msg] | e]; try reflexivity.
  destruct (storage_createSignedUrl w bucket (run_path r) 3600) as [sg | e];
    simpl; rewrite <- ?app_assoc; reflexivity.
Qed.

(* ===================================================================== *)
(** ** Authentication and input validation *)
(* ===================================================================== *)

(** C8.  A request other than a preflight whose Authorization header is
    absent is answered with status 401 and the body
    [{error: 'Missing authorization header'}], and no call is issued to the
    verifier or to any other collaborator: the trace is empty.  (The
    client has been built, which needs the configuration.) *)
Theorem C8_missing_authorization_header w req :
  jsstring_eqb (method req) (str "OPTIONS") = false ->
  configured w ->
  authorization req = None ->
  serve w req
  = (Returned
       {| status := 401;
          headers := corsHeaders ++ [(str "Content-Type", str "application/json")];
          body := Some (JObject [(str "error",
                                  JString (str "Missing authorization header"))]) |},
     []).
Proof.
  intros Hm Hc Ha. unfold serve, handle. rewrite Hm.
  unfold guarded. unfold configured in Hc.
  unfold_monad. rewrite Hc, Ha. reflexivity.
Qed.

Lemma C8_witness :
  serve (Demo.world (Demo.ai_ok JNull) Demo.inserted Demo.signed)
    {| method := str "POST"; authorization := None;
       formData := Returned [(str "image", EntryFile Demo.file)] |}
  = (Returned
       {| status := 401;
          headers := corsHeaders ++ [(str "Content-Type", str "application/json")];
          body := Some (JObject [(str "error",
                                  JString (str "Missing authorization header"))]) |},
     []).
Proof.
  apply C8_missing_authorization_header; reflexivity.
Defined.

(** An empty header value is treated like an absent header. *)
Lemma empty_authorization_header w req :
  jsstring_eqb (method req) (str "OPTIONS") = false ->
  configured w ->
  authorization req = Some [] ->
  serve w req = (Returned (error_response 401 "Missing authorization header"), []).
Proof.
  intros Hm Hc Ha. unfold serve, handle. rewrite Hm.
  unfold guarded. unfold configured in Hc.
  unfold_monad. rewrite Hc, Ha. reflexivity.
Qed.

(** The form has no [image] field: status 400 after the call to the
    verifier and nothing else. *)
Lemma image_absent w req authHeader user fd :
  authenticated w req authHeader user ->
  formData req = Returned fd ->
  form_get (str "image") fd = None ->
  serve w req
  = (Returned (error_response 400 "No image file provided"),
     [CallGetUser (token_of authHeader)]).
Proof.
  intros Hauth Hf Hg. rewrite (serve_authenticated _ _ _ _ Hauth).
  unfold_monad. rewrite Hf, Hg. reflexivity.
Qed.

(** C4, at the field that is present and no file.  An [image] field that
    is a string and not empty passes the test of line 46.  Whatever the
    store answers, the string is handed to the store under a key that ends
    in [undefined], and the request is answered with status 500, not 400:
    with [Failed to upload image] when the store refuses, from the outer
    [catch] when it accepts, [arrayBuffer] being no method of a string. *)
Theorem C4_text_field_is_uploaded w req authHeader user fd text :
  authenticated w req authHeader user ->
  formData req = Returned fd ->
  form_get (str "image") fd = Some (EntryString text) ->
  is_empty text = false ->
  let key := user_id user ++ str "/" ++ number_to_string (date_now w)
             ++ str "_" ++ str "undefined" in
  let opts := {| contentType := None; upsert := false |} in
  exists resp,
    serve w req
    = (Returned resp,
       [CallGetUser (token_of authHeader);
        CallUpload bucket key (EntryString text) opts])
    /\ status resp = 500
    /\ (forall path,
          storage_upload w bucket key (EntryString text) opts
          = Returned (UploadData path) ->
          resp = json_response 500
                   (JObject [(str "error", JString (not_a_function w))])).
Proof.
  intros Hauth Hf Hg He key opts. rewrite (serve_authenticated _ _ _ _ Hauth).
  unfold_monad. rewrite Hf, Hg. unfold entry_truthy. rewrite He.
  unfold process, encode, storage_key, upload_options. unfold_monad.
  cbv [entry_name entry_type template negb]. cbn [app].
  fold key. fold opts.
  destruct (storage_upload w bucket key (EntryString text) opts)
    as [[path | msg] | e].
  - eexists. repeat split.
  - eexists. split; [reflexivity | split; [reflexivity | ]].
    intros path H. discriminate H.
  - eexists. split; [reflexivity | split; [reflexivity | ]].
    intros path H. discriminate H.
Qed.

Lemma C4_witness :
  let w := Demo.world (Demo.ai_ok JNull) Demo.inserted Demo.signed in
  let key := str "5f0c2b1e-8a41-4c69-9d0e-3b7a6c1d2e4f/1700000000000_undefined" in
  let opts := {| contentType := None; upsert := false |} in
  exists resp,
    serve w (Demo.post [(str "image", EntryString (str "hello"))])
    = (Returned resp,
       [CallGetUser (str "token-1");
        CallUpload (str "thermal-images") key (EntryString (str "hello")) opts])
    /\ status resp = 500
    /\ (forall path,
          storage_upload w bucket key (EntryString (str "hello")) opts
          = Returned (UploadData path) ->
          resp = json_response 500
                   (JObject [(str "error",
                              JString (str "file.arrayBuffer is not a function"))])).
Proof.
  apply (C4_text_field_is_uploaded
           (Demo.world (Demo.ai_ok JNull) Demo.inserted Demo.signed)
           (Demo.post [(str "image", EntryString (str "hello"))])
           Demo.authHeader Demo.user
           [(str "image", EntryString (str "hello"))] (str "hello")).
  - repeat split; reflexivity.
  - reflexivity.
  - reflexivity.
  - reflexivity.
Defined.

(* ===================================================================== *)
(** ** Failures of the AI gateway, of the insert and of the signing *)
(* ===================================================================== *)

(** C3, as stated, fails when the body of the error answer cannot be read:
    line 115 awaits [aiResponse.text()] before the status is looked at, and
    what it throws reaches the outer [catch].  A gateway answer with status
    429 is then answered with status 500 and the message of the error; the
    gateway has been called once. *)
Lemma C3_counterexample :
  ai_status Cases.ai_unreadable = 429
  /\ ok Cases.ai_unreadable = false
  /\ serve (Demo.world Cases.ai_unreadable Demo.inserted Demo.signed) Demo.request
     = (Returned
       {| status := 500;
          headers := corsHeaders ++ [(str "Content-Type", str "application/json")];
          body := Some (JObject [(str "error", JString (str "error reading a body from connection"))]) |},
     [CallGetUser (token_of (run_header (Demo.run Cases.ai_unreadable)));
      CallUpload (str "thermal-images") (run_key (Demo.world Cases.ai_unreadable Demo.inserted Demo.signed) (Demo.run Cases.ai_unreadable)) (EntryFile (run_file (Demo.run Cases.ai_unreadable)))
        {| contentType := Some (file_type (run_file (Demo.run Cases.ai_unreadable))); upsert := false |};
      CallFetch (run_init (Demo.world Cases.ai_unreadable Demo.inserted Demo.signed) (Demo.run Cases.ai_unreadable))]).
Proof. repeat split. Qed.

(** C3, amended.  When the AI gateway answers an authenticated request
    with a status outside 200-299 and the body of that answer is read
    (line 115 returns), the handler answers 429 with the rate-limit
    message for 429, 402 with the credits message for 402, and 500 with
    [Failed to analyze image] for any other status.  The trace holds a
    single call to the gateway: there is no retry. *)
Theorem C3_ai_error_mapping w req r errorText :
  ai_answered w req r ->
  ok (run_ai r) = false ->
  ai_text (run_ai r) = Returned errorText ->
  let tr := [CallGetUser (token_of (run_header r));
      CallUpload (str "thermal-images") (run_key w r) (EntryFile (run_file r))
        {| contentType := Some (file_type (run_file r)); upsert := false |};
      CallFetch (run_init w r)] in
  (ai_status (run_ai r) = 429 ->
   serve w req
   = (Returned
       {| status := 429;
          headers := corsHeaders ++ [(str "Content-Type", str "application/json")];
          body := Some (JObject [(str "error", JString (str "Rate limit exceeded. Please try again later."))]) |},
      tr))
  /\ (ai_status (run_ai r) = 402 ->
      serve w req
      = (Returned
       {| status := 402;
          headers := corsHeaders ++ [(str "Content-Type", str "application/json")];
          body := Some (JObject [(str "error", JString (str "AI credits exhausted. Please add credits to continue."))]) |},
         tr))
  /\ (ai_status (run_ai r) <> 429 -> ai_status (run_ai r) <> 402 ->
      serve w req
      = (Returned
       {| status := 500;
          headers := corsHeaders ++ [(str "Content-Type", str "application/json")];
          body := Some (JObject [(str "error", JString (str "Failed to analyze image"))]) |},
         tr))
  /\ count is_fetch tr = 1%nat.
Proof.
  intros Hai Hok Ht tr. rewrite (serve_ai_answered _ _ _ Hai). rewrite Hok.
  unfold ai_failure. unfold_monad. rewrite Ht. cbn [negb].
  repeat split.
  - intros ->. reflexivity.
  - intros ->. reflexivity.
  - intros H1 H2.
    destruct (Z.eqb_spec (ai_status (run_ai r)) 429); [contradiction | ].
    destruct (Z.eqb_spec (ai_status (run_ai r)) 402); [contradiction | ].
    reflexivity.
Qed.

Lemma C3_witness :
  serve (Demo.world (Demo.ai_error 429) Demo.inserted Demo.signed) Demo.request
    = (Returned
       {| status := 429;
          headers := corsHeaders ++ [(str "Content-Type", str "application/json")];
          body := Some (JObject [(str "error", JString (str "Rate limit exceeded. Please try again later."))]) |},
     [CallGetUser (token_of (run_header (Demo.run (Demo.ai_error 429))));
      CallUpload (str "thermal-images") (run_key (Demo.world (Demo.ai_error 429) Demo.inserted Demo.signed) (Demo.run (Demo.ai_error 429))) (EntryFile (run_file (Demo.run (Demo.ai_error 429))))
        {| contentType := Some (file_type (run_file (Demo.run (Demo.ai_error 429)))); upsert := false |};
      CallFetch (run_init (Demo.world (Demo.ai_error 429) Demo.inserted Demo.signed) (Demo.run (Demo.ai_error 429)))])
  /\ serve (Demo.world (Demo.ai_error 402) Demo.inserted Demo.signed) Demo.request
    = (Returned
       {| status := 402;
          headers := corsHeaders ++ [(str "Content-Type", str "application/json")];
          body := Some (JObject [(str "error", JString (str "AI credits exhausted. Please add credits to continue."))]) |},
     [CallGetUser (token_of (run_header (Demo.run (Demo.ai_error 402))));
      CallUpload (str "thermal-images") (run_key (Demo.world (Demo.ai_error 402) Demo.inserted Demo.signed) (Demo.run (Demo.ai_error 402))) (EntryFile (run_file (Demo.run (Demo.ai_error 402))))
        {| contentType := Some (file_type (run_file (Demo.run (Demo.ai_error 402)))); upsert := false |};
      CallFetch (run_init (Demo.world (Demo.ai_error 402) Demo.inserted Demo.signed) (Demo.run (Demo.ai_error 402)))])
  /\ serve (Demo.world (Demo.ai_error 503) Demo.inserted Demo.signed) Demo.request
    = (Returned
       {| status := 500;
          headers := corsHeaders ++ [(str "Content-Type", str "application/json")];
          body := Some (JObject [(str "error", JString (str "Failed to analyze image"))]) |},
     [CallGetUser (token_of (run_header (Demo.run (Demo.ai_error 503))));
      CallUpload (str "thermal-images") (run_key (Demo.world (Demo.ai_error 503) Demo.inserted Demo.signed) (Demo.run (Demo.ai_error 503))) (EntryFile (run_file (Demo.run (Demo.ai_error 503))))
        {| contentType := Some (file_type (run_file (Demo.run (Demo.ai_error 503)))); upsert := false |};
      CallFetch (run_init (Demo.world (Demo.ai_error 503) Demo.inserted Demo.signed) (Demo.run (Demo.ai_error 503)))]).
Proof.
  split; [| split].
  - apply (C3_ai_error_mapping
             (Demo.world (Demo.ai_error 429) Demo.inserted Demo.signed)
             Demo.request (Demo.run (Demo.ai_error 429)) (str "upstream error"));
      [repeat split; reflexivity | reflexivity | reflexivity | reflexivity].
  - apply (C3_ai_error_mapping
             (Demo.world (Demo.ai_error 402) Demo.inserted Demo.signed)
             Demo.request (Demo.run (Demo.ai_error 402)) (str "upstream error"));
      [repeat split; reflexivity | reflexivity | reflexivity | reflexivity].
  - apply (C3_ai_error_mapping
             (Demo.world (Demo.ai_error 503) Demo.inserted Demo.signed)
             Demo.request (Demo.run (Demo.ai_error 503)) (str "upstream error"));
      [repeat split; reflexivity | reflexivity | reflexivity
       | simpl; lia | simpl; lia].
Defined.

(** C6.  When the insert of the record fails, the handler answers 500 with
    [Failed to save detection results].  The trace ends with that one
    insert: the upload of the earlier step is followed by no call that
    removes the object, and the insert is not issued again. *)
Theorem C6_insert_failure_no_rollback w req r aiData message :
  ai_succeeded w req r aiData ->
  insert_answer w r (parse_detections aiData) = Returned (InsertError message) ->
  let tr := [CallGetUser (token_of (run_header r));
      CallUpload (str "thermal-images") (run_key w r) (EntryFile (run_file r))
        {| contentType := Some (file_type (run_file r)); upsert := false |};
      CallFetch (run_init w r);
      CallInsert (str "detections")
        {| rec_user_id := user_id (run_user r);
           rec_image_path := run_path r;
           rec_detections := parse_detections aiData |}] in
  serve w req
  = (Returned
       {| status := 500;
          headers := corsHeaders ++ [(str "Content-Type", str "application/json")];
          body := Some (JObject [(str "error", JString (str "Failed to save detection results"))]) |},
     tr)
  /\ count is_upload tr = 1%nat
  /\ count is_remove tr = 0%nat
  /\ count is_insert tr = 1%nat.
Proof.
  intros Hs Hi. rewrite (serve_ai_succeeded _ _ _ _ Hs), Hi.
  repeat split.
Qed.

Lemma C6_witness :
  let w := Demo.world (Demo.ai_ok (Demo.completion (JString (str "[]"))))
             Demo.insert_failed Demo.signed in
  let r := Demo.run (Demo.ai_ok (Demo.completion (JString (str "[]")))) in
  let tr := [CallGetUser (token_of (run_header r));
      CallUpload (str "thermal-images") (run_key w r) (EntryFile (run_file r))
        {| contentType := Some (file_type (run_file r)); upsert := false |};
      CallFetch (run_init w r);
      CallInsert (str "detections")
        {| rec_user_id := user_id (run_user r);
           rec_image_path := run_path r;
           rec_detections := JArray [] |}] in
  serve w Demo.request
  = (Returned
       {| status := 500;
          headers := corsHeaders ++ [(str "Content-Type", str "application/json")];
          body := Some (JObject [(str "error", JString (str "Failed to save detection results"))]) |},
     tr)
  /\ count is_upload tr = 1%nat
  /\ count is_remove tr = 0%nat
  /\ count is_insert tr = 1%nat.
Proof.
  apply (C6_insert_failure_no_rollback
           (Demo.world (Demo.ai_ok (Demo.completion (JString (str "[]"))))
              Demo.insert_failed Demo.signed)
           Demo.request
           (Demo.run (Demo.ai_ok (Demo.completion (JString (str "[]")))))
           (Demo.completion (JString (str "[]")))
           (str "new row violates row-level security policy")).
  - repeat split; reflexivity.
  - reflexivity.
Defined.

(** C7.  When everything up to the insert has succeeded and the signing
    request is answered with an error, the handler still answers 200: the
    body holds [id], [detections] and [created_at], and no [image_url].
    No error branch is taken. *)
Theorem C7_signing_failure_not_fatal w req r aiData id created_at message :
  ai_succeeded w req r aiData ->
  insert_answer w r (parse_detections aiData) = Returned (InsertedRow id created_at) ->
  sign_answer w r = Returned (SignError message) ->
  serve w req
  = (Returned
       {| status := 200;
          headers := corsHeaders ++ [(str "Content-Type", str "application/json")];
          body := Some (JObject [(str "id", id);
                                 (str "detections", parse_detections aiData);
                                 (str "created_at", created_at)]) |},
     calls_to_ai w r ++ [call_insert r (parse_detections aiData); call_sign r]).
Proof.
  intros Hs Hi Hg. rewrite (serve_ai_succeeded _ _ _ _ Hs), Hi. cbv zeta.
  rewrite Hg. reflexivity.
Qed.

Lemma C7_witness :
  let ai := Demo.ai_ok (Demo.completion (JString (str "[]"))) in
  let w := Demo.world ai Demo.inserted Demo.sign_failed in
  serve w Demo.request
  = (Returned
       {| status := 200;
          headers := corsHeaders ++ [(str "Content-Type", str "application/json")];
          body := Some (JObject
                          [(str "id", JString (str "0d9e7a52-1c3b-4f6a-8e2d-5b4c3a2f1e0d"));
                           (str "detections", JArray []);
                           (str "created_at", JString (str "2023-11-14T22:13:20+00:00"))]) |},
     calls_to_ai w (Demo.run ai) ++ [call_insert (Demo.run ai) (JArray []); call_sign (Demo.run ai)]).
Proof.
  apply (C7_signing_failure_not_fatal
           (Demo.world (Demo.ai_ok (Demo.completion (JString (str "[]"))))
              Demo.inserted Demo.sign_failed)
           Demo.request
           (Demo.run (Demo.ai_ok (Demo.completion (JString (str "[]")))))
           (Demo.completion (JString (str "[]")))
           (JString (str "0d9e7a52-1c3b-4f6a-8e2d-5b4c3a2f1e0d"))
           (JString (str "2023-11-14T22:13:20+00:00"))
           (str "Object not found")).
  - repeat split; reflexivity.
  - reflexivity.
  - reflexivity.
Defined.

(* ===================================================================== *)
(** ** Parsing the AI answer *)
(* ===================================================================== *)





(** The handler's answer when every step succeeds. *)
Lemma serve_success w req r aiData id created_at sg :
  ai_succeeded w req r aiData ->
  insert_answer w r (parse_detections aiData) = Returned (InsertedRow id created_at) ->
  sign_answer w r = Returned sg ->
  serve w req
  = (Returned (json_response 200
       (success_body id (image_url_of sg) (parse_detections aiData) created_at)),
     calls_to_ai w r ++ [call_insert r (parse_detections aiData); call_sign r]).
Proof.
  intros Hs Hi Hg. rewrite (serve_ai_succeeded _ _ _ _ Hs), Hi. cbv zeta.
  rewrite Hg. reflexivity.
Qed.

(** The same, with the response and the calls written out. *)
Lemma serve_success_spelled w req r aiData id created_at sg :
  ai_succeeded w req r aiData ->
  insert_answer w r (parse_detections aiData) = Returned (InsertedRow id created_at) ->
  sign_answer w r = Returned sg ->
  serve w req
  = (Returned
       {| status := 200;
          headers := corsHeaders ++ [(str "Content-Type", str "application/json")];
          body :=
            Some (JObject
                    ([(str "id", id)]
                     ++ match sg with
                        | SignedUrl url => [(str "image_url", JString url)]
                        | SignError _ => []
                        end
                     ++ [(str "detections", parse_detections aiData);
                         (str "created_at", created_at)])) |},
     [CallGetUser (token_of (run_header r));
      CallUpload (str "thermal-images") (run_key w r) (EntryFile (run_file r))
        {| contentType := Some (file_type (run_file r)); upsert := false |};
      CallFetch (run_init w r);
      CallInsert (str "detections")
        {| rec_user_id := user_id (run_user r);
           rec_image_path := run_path r;
           rec_detections := parse_detections aiData |};
      CallCreateSignedUrl (str "thermal-images") (run_path r) 3600]).
Proof.
  intros Hs Hi Hg. rewrite (serve_success _ _ _ _ _ _ _ Hs Hi Hg).
  destruct sg; reflexivity.
Qed.

(** A content that is a string and not empty: the text that is parsed
    decides. *)
Lemma parse_detections_string aiData content :
  message_content aiData = Some (Some (JString content)) ->
  is_empty content = false ->
  parse_detections aiData
  = match Json.parse (json_text content) with
    | Some detections => detections
    | None => fallback
    end.
Proof.
  intros Hc He. unfold parse_detections, extract. rewrite Hc.
  unfold or_else, truthy. rewrite He. reflexivity.
Qed.


(** A body that is [null]: reading [choices] throws, the [catch] gives the
    fallback. *)
Lemma parse_detections_null : parse_detections JNull = fallback.
Proof. reflexivity. Qed.

(** C2.  For an AI answer whose message content is exactly the
    well-formed array text [car_content] (one detection: label Car,
    confidence 0.9, bbox 1 2 3 4, temperature warm), the [detections] of
    the inserted record and the [detections] of the 200 response are both
    the array that [JSON.parse] makes of that content, unchanged.  (The
    insert returns a row and the signing call returns.) *)
Theorem C2_round_trip w req r aiData id created_at sg :
  ai_succeeded w req r aiData ->
  message_content aiData = Some (Some (JString car_content)) ->
  insert_answer w r car_detections = Returned (InsertedRow id created_at) ->
  sign_answer w r = Returned sg ->
  Json.parse car_content = Some car_detections
  /\ serve w req
     = (Returned
       {| status := 200;
          headers := corsHeaders ++ [(str "Content-Type", str "application/json")];
          body :=
            Some (JObject
                    ([(str "id", id)]
                     ++ match sg with
                        | SignedUrl url => [(str "image_url", JString url)]
                        | SignError _ => []
                        end
                     ++ [(str "detections", car_detections);
                         (str "created_at", created_at)])) |},
     [CallGetUser (token_of (run_header r));
      CallUpload (str "thermal-images") (run_key w r) (EntryFile (run_file r))
        {| contentType := Some (file_type (run_file r)); upsert := false |};
      CallFetch (run_init w r);
      CallInsert (str "detections")
        {| rec_user_id := user_id (run_user r);
           rec_image_path := run_path r;
           rec_detections := car_detections |};
      CallCreateSignedUrl (str "thermal-images") (run_path r) 3600]).
Proof.
  intros Hs Hc Hi Hg.
  assert (Hp : Json.parse car_content = Some car_detections) by (vm_compute; reflexivity).
  assert (Hd : parse_detections aiData = car_detections).
  { rewrite (parse_detections_string _ _ Hc eq_refl).
    replace (json_text car_content) with car_content by (vm_compute; reflexivity).
    now rewrite Hp. }
  split; [exact Hp | ].
  rewrite <- Hd in Hi |- *. now apply serve_success_spelled.
Qed.

Lemma C2_witness :
  let ai := Demo.ai_ok (Demo.completion (JString car_content)) in
  let w := Demo.world ai Demo.inserted Demo.signed in
  let r := Demo.run ai in
  Json.parse car_content = Some car_detections
  /\ serve w Demo.request
     = (Returned
       {| status := 200;
          headers := corsHeaders ++ [(str "Content-Type", str "application/json")];
          body :=
            Some (JObject
                    [(str "id", JString (str "0d9e7a52-1c3b-4f6a-8e2d-5b4c3a2f1e0d"));
                     (str "image_url", JString (str "https://store.example/sign/scan.png?token=t"));
                     (str "detections", car_detections);
                     (str "created_at", JString (str "2023-11-14T22:13:20+00:00"))]) |},
     [CallGetUser (token_of (run_header r));
      CallUpload (str "thermal-images") (run_key w r) (EntryFile (run_file r))
        {| contentType := Some (file_type (run_file r)); upsert := false |};
      CallFetch (run_init w r);
      CallInsert (str "detections")
        {| rec_user_id := user_id (run_user r);
           rec_image_path := run_path r;
           rec_detections := car_detections |};
      CallCreateSignedUrl (str "thermal-images") (run_path r) 3600]).
Proof.
  apply (C2_round_trip
           (Demo.world (Demo.ai_ok (Demo.completion (JString car_content)))
              Demo.inserted Demo.signed)
           Demo.request
           (Demo.run (Demo.ai_ok (Demo.completion (JString car_content))))
           (Demo.completion (JString car_content))
           (JString (str "0d9e7a52-1c3b-4f6a-8e2d-5b4c3a2f1e0d"))
           (JString (str "2023-11-14T22:13:20+00:00"))
           (SignedUrl (str "https://store.example/sign/scan.png?token=t"))).
  - repeat split; reflexivity.
  - reflexivity.
  - reflexivity.
  - reflexivity.
Defined.




(** C10.  The [detections] that is persisted and returned need not be a
    list.  For every content that holds no opening bracket followed by a
    closing one and is itself JSON text, the parsed value, which is no
    array, is what is inserted and what the 200 response returns; the
    fallback detection is not applied.  (The insert returns a row and the
    signing call returns.) *)
Theorem C10_non_array_detections w req r aiData content v id created_at sg :
  ai_succeeded w req r aiData ->
  message_content aiData = Some (Some (JString content)) ->
  match_brackets content = None ->
  Json.parse content = Some v ->
  insert_answer w r v = Returned (InsertedRow id created_at) ->
  sign_answer w r = Returned sg ->
  serve w req
  = (Returned
       {| status := 200;
          headers := corsHeaders ++ [(str "Content-Type", str "application/json")];
          body :=
            Some (JObject
                    ([(str "id", id)]
                     ++ match sg with
                        | SignedUrl url => [(str "image_url", JString url)]
                        | SignError _ => []
                        end
                     ++ [(str "detections", v);
                         (str "created_at", created_at)])) |},
     [CallGetUser (token_of (run_header r));
      CallUpload (str "thermal-images") (run_key w r) (EntryFile (run_file r))
        {| contentType := Some (file_type (run_file r)); upsert := false |};
      CallFetch (run_init w r);
      CallInsert (str "detections")
        {| rec_user_id := user_id (run_user r);
           rec_image_path := run_path r;
           rec_detections := v |};
      CallCreateSignedUrl (str "thermal-images") (run_path r) 3600])
  /\ (forall elems, v <> JArray elems)
  /\ v <> fallback.
Proof.
  intros Hs Hc Hm Hp Hi Hg.
  assert (He : is_empty content = false).
  { destruct content; [discriminate Hp | reflexivity]. }
  assert (Hd : parse_detections aiData = v).
  { rewrite (parse_detections_string _ _ Hc He). unfold json_text.
    now rewrite Hm, Hp. }
  assert (Hna : forall elems, v <> JArray elems).
  { intros elems ->. apply JsonFacts.parse_array_bracketed in Hp.
    now apply match_brackets_None_iff in Hm. }
  repeat split.
  - rewrite <- Hd in Hi |- *. now apply serve_success_spelled.
  - exact Hna.
  - unfold fallback. apply Hna.
Qed.

Lemma C10_witness :
  let content := (js "{'label':'Car','temperature':'warm'}") in
  let v := (JObject [(str "label", JString (str "Car"));
                     (str "temperature", JString (str "warm"))]) in
  let ai := Demo.ai_ok (Demo.completion (JString content)) in
  let w := Demo.world ai Demo.inserted Demo.signed in
  let r := Demo.run ai in
  serve w Demo.request
  = (Returned
       {| status := 200;
          headers := corsHeaders ++ [(str "Content-Type", str "application/json")];
          body :=
            Some (JObject
                    [(str "id", JString (str "0d9e7a52-1c3b-4f6a-8e2d-5b4c3a2f1e0d"));
                     (str "image_url", JString (str "https://store.example/sign/scan.png?token=t"));
                     (str "detections", v);
                     (str "created_at", JString (str "2023-11-14T22:13:20+00:00"))]) |},
     [CallGetUser (token_of (run_header r));
      CallUpload (str "thermal-images") (run_key w r) (EntryFile (run_file r))
        {| contentType := Some (file_type (run_file r)); upsert := false |};
      CallFetch (run_init w r);
      CallInsert (str "detections")
        {| rec_user_id := user_id (run_user r);
           rec_image_path := run_path r;
           rec_detections := v |};
      CallCreateSignedUrl (str "thermal-images") (run_path r) 3600])
  /\ (forall elems, v <> JArray elems)
  /\ v <> fallback.
Proof.
  apply (C10_non_array_detections
           (Demo.world
              (Demo.ai_ok (Demo.completion (JString (js "{'label':'Car','temperature':'warm'}"))))
              Demo.inserted Demo.signed)
           Demo.request
           (Demo.run
              (Demo.ai_ok (Demo.completion (JString (js "{'label':'Car','temperature':'warm'}")))))
           (Demo.completion (JString (js "{'label':'Car','temperature':'warm'}")))
           (js "{'label':'Car','temperature':'warm'}")
           (JObject [(str "label", JString (str "Car"));
                     (str "temperature", JString (str "warm"))])
           (JString (str "0d9e7a52-1c3b-4f6a-8e2d-5b4c3a2f1e0d"))
           (JString (str "2023-11-14T22:13:20+00:00"))
           (SignedUrl (str "https://store.example/sign/scan.png?token=t"))).
  - repeat split; reflexivity.
  - reflexivity.
  - reflexivity.
  - reflexivity.
  - reflexivity.
  - reflexivity.
Defined.





(** An empty content is replaced by the literal of line 143 as well. *)
Lemma empty_content_empty_list :
  parse_detections (Demo.completion (JString [])) = JArray [].
Proof. reflexivity. Qed.

(* ===================================================================== *)
(** ** The storage key *)
(* ===================================================================== *)

(** The user id is the first segment of the key, ids having no solidus. *)
Lemma first_segment_prefix (u rest : jsstring) :
  ~ In 47%N u -> first_segment (u ++ 47%N :: rest) = u.
Proof.
  induction u as [| c u IH]; simpl; intros Hn; [reflexivity | ].
  destruct (N.eqb_spec c 47) as [-> | _].
  - exfalso. apply Hn. now left.
  - f_equal. apply IH. intros Hin. apply Hn. now right.
Qed.

Lemma first_segment_storage_key user now file :
  ~ In 47%N (user_id user) ->
  first_segment (storage_key user now file) = user_id user.
Proof.
  intros Hn. unfold storage_key.
  change (str "/" ++ number_to_string now ++ str "_" ++ template (entry_name file))
    with (47%N :: number_to_string now ++ str "_" ++ template (entry_name file)).
  now apply first_segment_prefix.
Qed.

(** C5, as stated, fails on a store that answers an upload with a path
    other than the key it was given: line 171 inserts [uploadData.path],
    the answer of the store, and not the key of line 56.  The run is
    answered with status 200 and the record of the user has an
    [image_path] whose first segment is not the id of the user. *)
Lemma C5_counterexample :
  let ai := Demo.ai_ok (Demo.completion (JString car_content)) in
  let w := Cases.world (Returned tt) (Some (str "key")) Cases.misplace (Returned ai) in
  let uid := str "5f0c2b1e-8a41-4c69-9d0e-3b7a6c1d2e4f" in
  serve w Demo.request
  = (Returned
       {| status := 200;
          headers := corsHeaders ++ [(str "Content-Type", str "application/json")];
          body :=
            Some (JObject
                    [(str "id", JString (str "0d9e7a52-1c3b-4f6a-8e2d-5b4c3a2f1e0d"));
                     (str "image_url",
                      JString (str "https://store.example/sign/scan.png?token=t"));
                     (str "detections", car_detections);
                     (str "created_at", JString (str "2023-11-14T22:13:20+00:00"))]) |},
     [CallGetUser (str "token-1");
      CallUpload (str "thermal-images")
        (str "5f0c2b1e-8a41-4c69-9d0e-3b7a6c1d2e4f/1700000000000_scan.png")
        (EntryFile Demo.file)
        {| contentType := Some (str "image/png"); upsert := false |};
      CallFetch (ai_request (Some (str "key")) (data_url Demo.file (str "iVBORw==")));
      CallInsert (str "detections")
        {| rec_user_id := uid;
           rec_image_path := str "someone-else/1_scan.png";
           rec_detections := car_detections |};
      CallCreateSignedUrl (str "thermal-images") (str "someone-else/1_scan.png") 3600])
  /\ first_segment (str "someone-else/1_scan.png") = str "someone-else"
  /\ str "someone-else" <> uid.
Proof.
  split; [vm_compute; reflexivity | ].
  split; [reflexivity | discriminate].
Qed.

(** C5, amended.  Every request that is answered with status 200
    (preflights apart) has uploaded the file of its [image] field under
    the key [{user_id}/{unix_millis}_{original_filename}], with the id of
    the user the verifier resolved for its header as first segment (ids
    having no solidus) and with [upsert] disabled, and has inserted a
    record of that user whose [image_path] is the path the store answered
    to that upload.  That path is the key the handler made, and starts
    with the same user id, when the store answers an upload with the key
    it was given. *)
Theorem C5_storage_key_owner w req resp tr :
  jsstring_eqb (method req) (str "OPTIONS") = false ->
  serve w req = (Returned resp, tr) ->
  status resp = 200 ->
  exists authHeader user fd file path init detections,
    authorization req = Some authHeader
    /\ auth_getUser w (token_of authHeader)
       = Returned {| auth_user := Some user; auth_error := None |}
    /\ formData req = Returned fd
    /\ form_get (str "image") fd = Some (EntryFile file)
    /\ let key := user_id user ++ str "/" ++ number_to_string (date_now w)
                  ++ str "_" ++ file_name file in
       let opts := {| contentType := Some (file_type file); upsert := false |} in
       storage_upload w (str "thermal-images") key (EntryFile file) opts
       = Returned (UploadData path)
       /\ tr = [CallGetUser (token_of authHeader);
                CallUpload (str "thermal-images") key (EntryFile file) opts;
                CallFetch init;
                CallInsert (str "detections")
                  {| rec_user_id := user_id user;
                     rec_image_path := path;
                     rec_detections := detections |};
                CallCreateSignedUrl (str "thermal-images") path 3600]
       /\ (~ In 47%N (user_id user) -> first_segment key = user_id user)
       /\ (store_echoes w -> path = key).
Proof.
  intros Hm H Hst.
  unfold serve, handle in H. rewrite Hm in H.
  unfold guarded in H. unfold_monad_in H.
  destruct (createClient w _ _) as [[] | e]; [| other_status H Hst].
  destruct (authorization req) as [authHeader |] eqn:Ha; [| other_status H Hst].
  destruct (is_empty authHeader); [other_status H Hst | ].
  destruct (auth_getUser w (token_of authHeader)) as [[[user |] [err |]] | e] eqn:Hu;
    try (other_status H Hst).
  step H.
  destruct (formData req) as [fd | e] eqn:Hf; [| other_status H Hst].
  destruct (form_get (str "image") fd) as [file |] eqn:Hg; [| other_status H Hst].
  destruct file as [file | text].
  2:{ unfold entry_truthy in H. destruct (is_empty text); step H.
      - other_status H Hst.
      - unfold process, encode in H. unfold_monad_in H. step H.
        destruct (storage_upload w bucket _ (EntryString text) _)
          as [[path | msg] | e]; other_status H Hst. }
  step H.
  unfold process, encode in H. unfold_monad_in H.
  unfold storage_key, upload_options in H.
  cbv [entry_name entry_type template] in H. step H.
  destruct (storage_upload w bucket _ (EntryFile file) _)
    as [[path | msg] | e] eqn:Hup; try (other_status H Hst).
  step H.
  destruct (base64 w (file_bytes file)) as [b | e]; [| other_status H Hst].
  step H.
  destruct (fetch w _) as [ai | e] eqn:Hfetch; [| other_status H Hst].
  step H.
  destruct (ok ai); step H.
  2:{ unfold ai_failure in H. unfold_monad_in H.
      destruct (ai_text ai) as [t | e]; [| other_status H Hst].
      destruct (ai_status ai =? 429); [other_status H Hst | ].
      destruct (ai_status ai =? 402); other_status H Hst. }
  unfold_monad_in H.
  destruct (ai_json ai) as [aiData | e]; [| other_status H Hst].
  unfold save_and_respond in H. unfold_monad_in H. step H.
  destruct (db_insert w _ _) as [[id created_at | msg] | e];
    try (other_status H Hst).
  step H.
  destruct (storage_createSignedUrl w _ _ _) as [sg | e]; [| other_status H Hst].
  step H. inversion H; subst.
  exists authHeader, user, fd, file, path,
    (ai_request (env_get w (str "LOVABLE_API_KEY")) (data_url file b)),
    (parse_detections aiData).
  split; [first [reflexivity | exact Ha] | ]. split; [exact Hu | ].
  split; [first [reflexivity | exact Hf] | ]. split; [exact Hg | ].
  cbv zeta. split; [exact Hup | ]. split; [reflexivity | ].
  split.
  - intros Hn. apply (first_segment_storage_key user (date_now w) (EntryFile file) Hn).
  - intros Hecho. apply (Hecho _ _ _ _ _ Hup).
Qed.

Lemma C5_witness :
  let ai := Demo.ai_ok (Demo.completion (JString car_content)) in
  let w := Demo.world ai Demo.inserted Demo.signed in
  let req := Demo.post [(str "note", EntryString (str "roof"));
                        (str "image", EntryFile Demo.file)] in
  (exists authHeader user fd file path init detections,
     authorization req = Some authHeader
     /\ auth_getUser w (token_of authHeader)
        = Returned {| auth_user := Some user; auth_error := None |}
     /\ formData req = Returned fd
     /\ form_get (str "image") fd = Some (EntryFile file)
     /\ let key := user_id user ++ str "/" ++ number_to_string (date_now w)
                   ++ str "_" ++ file_name file in
        let opts := {| contentType := Some (file_type file); upsert := false |} in
        storage_upload w (str "thermal-images") key (EntryFile file) opts
        = Returned (UploadData path)
        /\ snd (serve w req)
           = [CallGetUser (token_of authHeader);
              CallUpload (str "thermal-images") key (EntryFile file) opts;
              CallFetch init;
              CallInsert (str "detections")
                {| rec_user_id := user_id user;
                   rec_image_path := path;
                   rec_detections := detections |};
              CallCreateSignedUrl (str "thermal-images") path 3600]
        /\ (~ In 47%N (user_id user) -> first_segment key = user_id user)
        /\ (store_echoes w -> path = key))
  /\ nth_error (snd (serve w req)) 1
     = Some (CallUpload (str "thermal-images")
               (str "5f0c2b1e-8a41-4c69-9d0e-3b7a6c1d2e4f/1700000000000_scan.png")
               (EntryFile Demo.file)
               {| contentType := Some (str "image/png"); upsert := false |})
  /\ nth_error (snd (serve w req)) 3
     = Some (CallInsert (str "detections")
               {| rec_user_id := str "5f0c2b1e-8a41-4c69-9d0e-3b7a6c1d2e4f";
                  rec_image_path :=
                    str "5f0c2b1e-8a41-4c69-9d0e-3b7a6c1d2e4f/1700000000000_scan.png";
                  rec_detections := car_detections |}).
Proof.
  split; [| split; vm_compute; reflexivity].
  apply (C5_storage_key_owner
           (Demo.world (Demo.ai_ok (Demo.completion (JString car_content)))
              Demo.inserted Demo.signed)
           (Demo.post [(str "note", EntryString (str "roof"));
                       (str "image", EntryFile Demo.file)])
           {| status := 200;
              headers := corsHeaders ++ [(str "Content-Type", str "application/json")];
              body :=
                Some (JObject
                        [(str "id", JString (str "0d9e7a52-1c3b-4f6a-8e2d-5b4c3a2f1e0d"));
                         (str "image_url",
                          JString (str "https://store.example/sign/scan.png?token=t"));
                         (str "detections", car_detections);
                         (str "created_at", JString (str "2023-11-14T22:13:20+00:00"))]) |}).
  - reflexivity.
  - vm_compute. reflexivity.
  - reflexivity.
Defined.

(** The key of the demonstration run, spelled out. *)
Example storage_key_demo :
  storage_key Demo.user 1700000000000 (EntryFile Demo.file)
  = str "5f0c2b1e-8a41-4c69-9d0e-3b7a6c1d2e4f/1700000000000_scan.png".
Proof. reflexivity. Qed.

(* ===================================================================== *)
(** ** The built-ins on examples *)
(* ===================================================================== *)

Example parse_nested :
  Json.parse (js " [1, {'a': -2.50e3, 'a': true}, 'xA\n', null ] ")
  = Some (JArray [num_int 1;
                  JObject [(str "a", JBool true)];
                  JString [120; 65; 10]%N;
                  JNull]).
Proof. vm_compute. reflexivity. Qed.

Example parse_rejects :
  map (fun s => Json.parse (js s))
    ["[1,]"; "01"; "{'a':1} x"; "1."; "+1"; "{a:1}"; "[1 2]"; "nul"; ""]%string
  = [None; None; None; None; None; None; None; None; None].
Proof. vm_compute. reflexivity. Qed.

(** A code fence around the array is tolerated. *)
Example match_code_fence :
  match_brackets (str "```json [1, 2] ```") = Some (str "[1, 2]").
Proof. vm_compute. reflexivity. Qed.

(** The match runs to the last closing bracket: prose with a bracket after
    the array gives the fallback. *)
Example match_is_greedy :
  match_brackets (str "[1, 2] (see note ])") = Some (str "[1, 2] (see note ]")
  /\ parse_detections (Demo.completion (JString (str "[1, 2] (see note ])")))
     = fallback.
Proof. split; vm_compute; reflexivity. Qed.

Example token_of_bearer : token_of (str "Bearer token-1") = str "token-1".
Proof. reflexivity. Qed.

(* ===================================================================== *)
(** ** Every run of the handler *)
(* ===================================================================== *)

(** Whatever the world answers, the handler ends with a response, and the
    response and the calls issued are as [outcome_ok] says. *)
Lemma serve_outcome w req :
  exists resp tr, serve w req = (Returned resp, tr) /\ outcome_ok w req resp tr.
Proof.
  unfold serve, handle.
  destruct (jsstring_eqb (method req) (str "OPTIONS")) eqn:Hm.
  { unfold ret. outcome. }
  unfold guarded. unfold_monad.
  destruct (createClient w _ _) as [[] | e]; [| outcome].
  destruct (authorization req) as [authHeader |] eqn:Ha; [| outcome].
  destruct (is_empty authHeader) eqn:Hne; [outcome | ].
  destruct (auth_getUser w (token_of authHeader)) as [[[user |] [err |]] | e] eqn:Hu;
    go; try outcome.
  destruct (formData req) as [fd | e]; [| outcome].
  destruct (form_get (str "image") fd) as [file |]; [| outcome].
  destruct file as [file | text].
  2:{ unfold entry_truthy. destruct (is_empty text); go; [outcome | ].
      unfold process, encode. unfold_monad. go.
      destruct (storage_upload w bucket _ (EntryString text) _)
        as [[path | msg] | e]; outcome. }
  go. unfold process, encode. unfold_monad. go.
  destruct (storage_upload w bucket _ (EntryFile file) _)
    as [[path | msg] | e]; go; try outcome.
  destruct (base64 w (file_bytes file)) as [b | e]; go; [| outcome].
  destruct (fetch w _) as [ai | e]; go; [| outcome].
  destruct (ok ai); go.
  2:{ unfold ai_failure. unfold_monad.
      destruct (ai_text ai) as [t | e]; [| outcome].
      destruct (ai_status ai =? 429); [outcome | ].
      destruct (ai_status ai =? 402); outcome. }
  unfold_monad.
  destruct (ai_json ai) as [aiData | e]; [| outcome].
  unfold save_and_respond. unfold_monad. go.
  destruct (db_insert w _ _) as [[id created_at | msg] | e]; go; try outcome.
  destruct (storage_createSignedUrl w _ _ _) as [sg | e]; go; outcome.
Qed.

(** X1.  A preflight is answered before anything else (lines 10-12):
    status 200, no body, the two CORS headers, and no call to any
    collaborator, whatever the configuration and the credentials are. *)
Theorem X1_preflight_first w req :
  method req = str "OPTIONS" ->
  serve w req
  = (Returned
       {| status := 200;
          headers :=
            [(str "Access-Control-Allow-Origin", str "*");
             (str "Access-Control-Allow-Headers",
              str "authorization, x-client-info, apikey, content-type")];
          body := None |},
     []).
Proof. intros Hm. unfold serve, handle. rewrite Hm. reflexivity. Qed.

Lemma X1_witness :
  serve (Cases.world Cases.missing_url None Cases.refuse (Threw NotAnError))
    Cases.options
  = (Returned
       {| status := 200;
          headers :=
            [(str "Access-Control-Allow-Origin", str "*");
             (str "Access-Control-Allow-Headers",
              str "authorization, x-client-info, apikey, content-type")];
          body := None |},
     []).
Proof. apply X1_preflight_first. reflexivity. Defined.

(** X2.  The handler never rejects (lines 14 and 205-214): whatever the
    collaborators answer or throw, it ends with a response, and the status
    of that response is one of 200, 400, 401, 402, 429 and 500. *)
Theorem X2_always_a_response w req :
  exists resp tr,
    serve w req = (Returned resp, tr)
    /\ In (status resp) [200; 400; 401; 402; 429; 500].
Proof.
  destruct (serve_outcome w req) as (resp & tr & H & Hst & _).
  exists resp, tr. split; assumption.
Qed.

(** X3.  Every response carries the CORS headers of lines 4-7, and every
    response other than the answer to a preflight has a JSON body and the
    content type [application/json]. *)
Theorem X3_cors_on_every_response w req :
  exists resp tr,
    serve w req = (Returned resp, tr)
    /\ header (str "Access-Control-Allow-Origin") (headers resp) = Some (str "*")
    /\ header (str "Access-Control-Allow-Headers") (headers resp)
       = Some (str "authorization, x-client-info, apikey, content-type")
    /\ (jsstring_eqb (method req) (str "OPTIONS") = false ->
        body resp <> None
        /\ header (str "Content-Type") (headers resp)
           = Some (str "application/json")).
Proof.
  destruct (serve_outcome w req) as (resp & tr & H & _ & [rest Hh] & Hb & Hct & _).
  exists resp, tr. split; [assumption | ].
  split; [rewrite Hh; reflexivity | ].
  split; [rewrite Hh; reflexivity | ].
  intros Hm.
  assert (Hbody : body resp <> None).
  { intros Hn. apply Hb in Hn. congruence. }
  split; [assumption | ]. rewrite (Hct Hbody). reflexivity.
Qed.

(** X4.  The collaborators are called in one fixed order, each at most
    once (lines 31-190): the verifier, the upload, the AI gateway, the
    insert, the signing; a run stops somewhere along that list.  No call
    removes an object from the store. *)
Theorem X4_calls_in_order w req :
  exists resp tr,
    serve w req = (Returned resp, tr)
    /\ map call_kind tr
       = firstn (List.length tr) [KGetUser; KUpload; KFetch; KInsert; KSign]
    /\ (List.length tr <= 5)%nat
    /\ count is_remove tr = 0%nat.
Proof.
  destruct (serve_outcome w req) as (resp & tr & H & _ & _ & _ & _ & Hk & Hr & _).
  exists resp, tr. repeat split; try assumption.
  apply (f_equal (@List.length CallKind)) in Hk.
  rewrite length_map, length_firstn in Hk. simpl in Hk. lia.
Qed.

(** X5.  A token that the verifier does not resolve (an error, or no
    user) is answered with status 401 and [Unauthorized] (lines 35-41); the
    verifier is the only collaborator called. *)
Theorem X5_rejected_token w req authHeader auth :
  jsstring_eqb (method req) (str "OPTIONS") = false ->
  configured w ->
  authorization req = Some authHeader ->
  is_empty authHeader = false ->
  auth_getUser w (token_of authHeader) = Returned auth ->
  auth_error auth <> None \/ auth_user auth = None ->
  serve w req
  = (Returned
       {| status := 401;
          headers := corsHeaders ++ [(str "Content-Type", str "application/json")];
          body := Some (JObject [(str "error", JString (str "Unauthorized"))]) |},
     [CallGetUser (token_of authHeader)]).
Proof.
  intros Hm Hc Ha He Hu Hbad. unfold serve, handle. rewrite Hm.
  unfold guarded. unfold configured in Hc.
  unfold_monad. rewrite Hc, Ha, He, Hu.
  destruct (auth_error auth), (auth_user auth); try reflexivity.
  destruct Hbad; congruence.
Qed.

Lemma X5_witness :
  serve (Demo.world (Demo.ai_ok JNull) Demo.inserted Demo.signed) Cases.stranger
  = (Returned
       {| status := 401;
          headers := corsHeaders ++ [(str "Content-Type", str "application/json")];
          body := Some (JObject [(str "error", JString (str "Unauthorized"))]) |},
     [CallGetUser (str "token-2")]).
Proof.
  apply (X5_rejected_token
           (Demo.world (Demo.ai_ok JNull) Demo.inserted Demo.signed) Cases.stranger
           (str "Bearer token-2")
           {| auth_user := None; auth_error := Some (str "invalid JWT") |}).
  - reflexivity.
  - reflexivity.
  - reflexivity.
  - reflexivity.
  - reflexivity.
  - right. reflexivity.
Defined.

(** X6.  An Authorization header that is present and empty is answered
    like an absent one (line 23 tests [!authHeader]): status 401 with
    [Missing authorization header], and the verifier is not called. *)
Theorem X6_empty_authorization_header w req :
  jsstring_eqb (method req) (str "OPTIONS") = false ->
  configured w ->
  authorization req = Some [] ->
  serve w req
  = (Returned
       {| status := 401;
          headers := corsHeaders ++ [(str "Content-Type", str "application/json")];
          body := Some (JObject [(str "error",
                                  JString (str "Missing authorization header"))]) |},
     []).
Proof.
  intros Hm Hc Ha. unfold serve, handle. rewrite Hm.
  unfold guarded. unfold configured in Hc.
  unfold_monad. rewrite Hc, Ha. reflexivity.
Qed.

Lemma X6_witness :
  serve (Demo.world (Demo.ai_ok JNull) Demo.inserted Demo.signed)
    {| method := str "POST"; authorization := Some [];
       formData := Returned [(str "image", EntryFile Demo.file)] |}
  = (Returned
       {| status := 401;
          headers := corsHeaders ++ [(str "Content-Type", str "application/json")];
          body := Some (JObject [(str "error",
                                  JString (str "Missing authorization header"))]) |},
     []).
Proof. apply X6_empty_authorization_header; reflexivity. Defined.

(** X7.  The test of line 46 answers 400 exactly when the [image] field is
    absent or is an empty string; then the response is
    [No image file provided] and the verifier is the only collaborator
    that was called.  Every other field value goes on to the upload: the
    verifier's call is followed by the upload of that value under the key
    of line 56, with [upsert] disabled. *)
Theorem X7_no_image_exactly w req authHeader user fd :
  authenticated w req authHeader user ->
  formData req = Returned fd ->
  exists resp tr,
    serve w req = (Returned resp, tr)
    /\ (status resp = 400 <->
        form_get (str "image") fd = None
        \/ form_get (str "image") fd = Some (EntryString []))
    /\ (status resp = 400 ->
        resp = {| status := 400;
                  headers := corsHeaders
                             ++ [(str "Content-Type", str "application/json")];
                  body := Some (JObject [(str "error",
                                          JString (str "No image file provided"))]) |}
        /\ tr = [CallGetUser (token_of authHeader)])
    /\ (status resp <> 400 ->
        exists file rest,
          form_get (str "image") fd = Some file
          /\ tr = [CallGetUser (token_of authHeader);
                   CallUpload (str "thermal-images")
                     (user_id user ++ str "/" ++ number_to_string (date_now w)
                      ++ str "_" ++ template (entry_name file))
                     file
                     {| contentType := entry_type file; upsert := false |}]
                  ++ rest).
Proof.
  intros Hauth Hf. rewrite (serve_authenticated _ _ _ _ Hauth).
  unfold_monad. rewrite Hf.
  destruct (form_get (str "image") fd) as [[file | text] |].
  - go. unfold process, encode. unfold_monad. go.
    destruct (storage_upload w bucket _ (EntryFile file) _)
      as [[path | msg] | e]; go; try not_400.
    destruct (base64 w (file_bytes file)) as [b | e]; go; [| not_400].
    destruct (fetch w _) as [ai | e]; go; [| not_400].
    destruct (ok ai); go.
    2:{ unfold ai_failure. unfold_monad.
        destruct (ai_text ai) as [t | e]; [| not_400].
        destruct (ai_status ai =? 429); [not_400 | ].
        destruct (ai_status ai =? 402); not_400. }
    unfold_monad.
    destruct (ai_json ai) as [aiData | e]; [| not_400].
    unfold save_and_respond. unfold_monad. go.
    destruct (db_insert w _ _) as [[id created_at | msg] | e]; go; try not_400.
    destruct (storage_createSignedUrl w _ _ _) as [sg | e]; go; not_400.
  - destruct text as [| c text].
    + eexists; eexists. split; [reflexivity | ].
      split; [split; [intros _; now right | reflexivity] | ].
      split; [intros _; split; reflexivity | ].
      intros Hne. exfalso. apply Hne. reflexivity.
    + go. unfold process, encode. unfold_monad. go.
      destruct (storage_upload w bucket _ (EntryString (c :: text)) _)
        as [[path | msg] | e]; not_400.
  - eexists; eexists. split; [reflexivity | ].
    split; [split; [intros _; now left | reflexivity] | ].
    split; [intros _; split; reflexivity | ].
    intros Hne. exfalso. apply Hne. reflexivity.
Qed.

Lemma X7_witness :
  let w := Demo.world (Demo.ai_ok JNull) Demo.inserted Demo.signed in
  let fd := [(str "file", EntryFile Demo.file); (str "image", EntryString (str "hello"))] in
  (exists resp tr,
     serve w (Demo.post fd) = (Returned resp, tr)
     /\ (status resp = 400 <->
         form_get (str "image") fd = None
         \/ form_get (str "image") fd = Some (EntryString []))
     /\ (status resp = 400 ->
         resp = {| status := 400;
                   headers := corsHeaders
                              ++ [(str "Content-Type", str "application/json")];
                   body := Some (JObject [(str "error",
                                           JString (str "No image file provided"))]) |}
         /\ tr = [CallGetUser (token_of Demo.authHeader)])
     /\ (status resp <> 400 ->
         exists file rest,
           form_get (str "image") fd = Some file
           /\ tr = [CallGetUser (token_of Demo.authHeader);
                    CallUpload (str "thermal-images")
                      (user_id Demo.user ++ str "/" ++ number_to_string (date_now w)
                       ++ str "_" ++ template (entry_name file))
                      file
                      {| contentType := entry_type file; upsert := false |}]
                   ++ rest))
  /\ serve w (Demo.post fd)
     = (Returned
          {| status := 500;
             headers := corsHeaders ++ [(str "Content-Type", str "application/json")];
             body := Some (JObject [(str "error",
                                     JString (str "file.arrayBuffer is not a function"))]) |},
        [CallGetUser (str "token-1");
         CallUpload (str "thermal-images")
           (str "5f0c2b1e-8a41-4c69-9d0e-3b7a6c1d2e4f/1700000000000_undefined")
           (EntryString (str "hello")) {| contentType := None; upsert := false |}])
  /\ serve w (Demo.post [(str "image", EntryString [])])
     = (Returned
          {| status := 400;
             headers := corsHeaders ++ [(str "Content-Type", str "application/json")];
             body := Some (JObject [(str "error",
                                     JString (str "No image file provided"))]) |},
        [CallGetUser (str "token-1")]).
Proof.
  split; [| split; vm_compute; reflexivity].
  apply (X7_no_image_exactly
           (Demo.world (Demo.ai_ok JNull) Demo.inserted Demo.signed)
           (Demo.post [(str "file", EntryFile Demo.file);
                       (str "image", EntryString (str "hello"))])
           Demo.authHeader Demo.user).
  - repeat split; reflexivity.
  - reflexivity.
Defined.

(** X8.  When the store refuses the upload (lines 64-70), the handler
    answers 500 with [Failed to upload image] and stops: neither the AI
    gateway nor the relational store is called. *)
Theorem X8_upload_refused w req authHeader user fd file message :
  authenticated w req authHeader user ->
  formData req = Returned fd ->
  form_get (str "image") fd = Some (EntryFile file) ->
  storage_upload w bucket (storage_key user (date_now w) (EntryFile file))
    (EntryFile file) {| contentType := Some (file_type file); upsert := false |}
  = Returned (UploadError message) ->
  serve w req
  = (Returned
       {| status := 500;
          headers := corsHeaders ++ [(str "Content-Type", str "application/json")];
          body := Some (JObject [(str "error",
                                  JString (str "Failed to upload image"))]) |},
     [CallGetUser (token_of authHeader);
      CallUpload bucket (storage_key user (date_now w) (EntryFile file))
        (EntryFile file) {| contentType := Some (file_type file); upsert := false |}]).
Proof.
  intros Hauth Hf Hg Hu. rewrite (serve_authenticated _ _ _ _ Hauth).
  unfold_monad. rewrite Hf, Hg. go.
  unfold process, encode, upload_options. unfold_monad.
  cbv [entry_type]. cbn [app]. rewrite Hu. reflexivity.
Qed.

Lemma X8_witness :
  serve (Cases.world (Returned tt) (Some (str "key")) Cases.refuse
           (Returned (Demo.ai_ok JNull)))
    Demo.request
  = (Returned
       {| status := 500;
          headers := corsHeaders ++ [(str "Content-Type", str "application/json")];
          body := Some (JObject [(str "error",
                                  JString (str "Failed to upload image"))]) |},
     [CallGetUser (str "token-1");
      CallUpload bucket
        (str "5f0c2b1e-8a41-4c69-9d0e-3b7a6c1d2e4f/1700000000000_scan.png")
        (EntryFile Demo.file)
        {| contentType := Some (str "image/png"); upsert := false |}]).
Proof.
  apply (X8_upload_refused
           (Cases.world (Returned tt) (Some (str "key")) Cases.refuse
              (Returned (Demo.ai_ok JNull)))
           Demo.request Demo.authHeader Demo.user
           [(str "image", EntryFile Demo.file)] Demo.file
           (str "mime type text/plain is not supported")).
  - repeat split; reflexivity.
  - reflexivity.
  - reflexivity.
  - reflexivity.
Defined.

(** X9.  When reading the form throws (line 43, a body that is no
    multipart form), the outer [catch] of lines 205-213 answers 500: with
    the message of the error when an [Error] was thrown, with
    [Internal server error] otherwise.  The verifier has been called,
    nothing else. *)
Theorem X9_unreadable_form w req authHeader user e :
  authenticated w req authHeader user ->
  formData req = Threw e ->
  serve w req
  = (Returned
       {| status := 500;
          headers := corsHeaders ++ [(str "Content-Type", str "application/json")];
          body := Some (JObject
                          [(str "error",
                            JString match e with
                                    | ErrorObject message => message
                                    | NotAnError => str "Internal server error"
                                    end)]) |},
     [CallGetUser (token_of authHeader)]).
Proof.
  intros Hauth Hf. rewrite (serve_authenticated _ _ _ _ Hauth).
  unfold_monad. rewrite Hf. reflexivity.
Qed.

Lemma X9_witness :
  serve (Demo.world (Demo.ai_ok JNull) Demo.inserted Demo.signed) Cases.no_form
  = (Returned
       {| status := 500;
          headers := corsHeaders ++ [(str "Content-Type", str "application/json")];
          body := Some (JObject
                          [(str "error",
                            JString (str "Body can not be decoded as form data"))]) |},
     [CallGetUser (str "token-1")]).
Proof.
  apply (X9_unreadable_form
           (Demo.world (Demo.ai_ok JNull) Demo.inserted Demo.signed) Cases.no_form
           Demo.authHeader Demo.user
           (ErrorObject (str "Body can not be decoded as form data"))).
  - repeat split; reflexivity.
  - reflexivity.
Defined.

(** X10.  When the AI gateway answers with a success status and a body
    that is no JSON (line 138 throws), the request ends in the outer
    [catch] with status 500.  The image has been uploaded before: the
    trace holds the upload, no insert, and no call that removes the
    object. *)
Theorem X10_ai_body_not_json w req r e :
  ai_answered w req r ->
  ok (run_ai r) = true ->
  ai_json (run_ai r) = Threw e ->
  serve w req = (Returned (internal_error e), calls_to_ai w r)
  /\ status (internal_error e) = 500
  /\ count is_upload (calls_to_ai w r) = 1%nat
  /\ count is_insert (calls_to_ai w r) = 0%nat
  /\ count is_remove (calls_to_ai w r) = 0%nat.
Proof.
  intros Hai Hok Hj. rewrite (serve_ai_answered _ _ _ Hai), Hok.
  unfold_monad. rewrite Hj. repeat split.
Qed.

Lemma X10_witness :
  let w := Demo.world Cases.ai_html Demo.inserted Demo.signed in
  let r := Demo.run Cases.ai_html in
  serve w Demo.request
  = (Returned (internal_error (ErrorObject (str "Unexpected token '<'"))),
     calls_to_ai w r)
  /\ status (internal_error (ErrorObject (str "Unexpected token '<'"))) = 500
  /\ count is_upload (calls_to_ai w r) = 1%nat
  /\ count is_insert (calls_to_ai w r) = 0%nat
  /\ count is_remove (calls_to_ai w r) = 0%nat.
Proof.
  apply (X10_ai_body_not_json
           (Demo.world Cases.ai_html Demo.inserted Demo.signed)
           Demo.request (Demo.run Cases.ai_html)
           (ErrorObject (str "Unexpected token '<'"))).
  - repeat split; reflexivity.
  - reflexivity.
  - reflexivity.
Defined.

(** X11.  The client is built before the Authorization header is looked
    at (lines 15-23): when building it throws, as it does without its
    configuration, every request other than a preflight is answered with
    status 500 from the outer [catch], also a request without header, and
    no collaborator is called. *)
Theorem X11_not_configured w req e :
  jsstring_eqb (method req) (str "OPTIONS") = false ->
  createClient w (env_get w (str "SUPABASE_URL"))
    (env_get w (str "SUPABASE_SERVICE_ROLE_KEY")) = Threw e ->
  serve w req
  = (Returned
       {| status := 500;
          headers := corsHeaders ++ [(str "Content-Type", str "application/json")];
          body := Some (JObject
                          [(str "error",
                            JString match e with
                                    | ErrorObject message => message
                                    | NotAnError => str "Internal server error"
                                    end)]) |},
     []).
Proof.
  intros Hm Hc. unfold serve, handle. rewrite Hm.
  unfold guarded. unfold_monad. rewrite Hc. reflexivity.
Qed.

Lemma X11_witness :
  serve (Cases.world Cases.missing_url None Cases.accept (Returned (Demo.ai_ok JNull)))
    {| method := str "POST"; authorization := None;
       formData := Returned [(str "image", EntryFile Demo.file)] |}
  = (Returned
       {| status := 500;
          headers := corsHeaders ++ [(str "Content-Type", str "application/json")];
          body := Some (JObject [(str "error",
                                  JString (str "supabaseUrl is required."))]) |},
     []).
Proof.
  apply (X11_not_configured
           (Cases.world Cases.missing_url None Cases.accept
              (Returned (Demo.ai_ok JNull)))
           {| method := str "POST"; authorization := None;
              formData := Returned [(str "image", EntryFile Demo.file)] |}
           (ErrorObject (str "supabaseUrl is required."))).
  - reflexivity.
  - reflexivity.
Defined.

(** X12.  When every step succeeds (lines 9-203), the handler answers 200
    with [id], [image_url], [detections] and [created_at], in that order:
    [id] and [created_at] are those of the row read back, [image_url] is
    the signed URL, [detections] is what was inserted.  Five calls have
    been issued: verifier, upload, AI gateway, insert, and the signing of
    the stored path for 3600 seconds. *)
Theorem X12_end_to_end w req r aiData id created_at url :
  ai_succeeded w req r aiData ->
  insert_answer w r (parse_detections aiData) = Returned (InsertedRow id created_at) ->
  sign_answer w r = Returned (SignedUrl url) ->
  serve w req
  = (Returned
       {| status := 200;
          headers := corsHeaders ++ [(str "Content-Type", str "application/json")];
          body := Some (JObject [(str "id", id);
                                 (str "image_url", JString url);
                                 (str "detections", parse_detections aiData);
                                 (str "created_at", created_at)]) |},
     [CallGetUser (token_of (run_header r));
      CallUpload (str "thermal-images") (run_key w r) (EntryFile (run_file r))
        {| contentType := Some (file_type (run_file r)); upsert := false |};
      CallFetch (run_init w r);
      CallInsert (str "detections")
        {| rec_user_id := user_id (run_user r);
           rec_image_path := run_path r;
           rec_detections := parse_detections aiData |};
      CallCreateSignedUrl (str "thermal-images") (run_path r) 3600]).
Proof.
  intros Hs Hi Hg. rewrite (serve_ai_succeeded _ _ _ _ Hs), Hi. cbv zeta.
  rewrite Hg. reflexivity.
Qed.

Lemma X12_witness :
  let ai := Demo.ai_ok (Demo.completion (JString car_content)) in
  let w := Demo.world ai Demo.inserted Demo.signed in
  let r := Demo.run ai in
  serve w Demo.request
  = (Returned
       {| status := 200;
          headers := corsHeaders ++ [(str "Content-Type", str "application/json")];
          body := Some (JObject
                          [(str "id", JString (str "0d9e7a52-1c3b-4f6a-8e2d-5b4c3a2f1e0d"));
                           (str "image_url",
                            JString (str "https://store.example/sign/scan.png?token=t"));
                           (str "detections", car_detections);
                           (str "created_at", JString (str "2023-11-14T22:13:20+00:00"))]) |},
     [CallGetUser (token_of (run_header r));
      CallUpload (str "thermal-images") (run_key w r) (EntryFile (run_file r))
        {| contentType := Some (file_type (run_file r)); upsert := false |};
      CallFetch (run_init w r);
      CallInsert (str "detections")
        {| rec_user_id := user_id (run_user r);
           rec_image_path := run_path r;
           rec_detections := car_detections |};
      CallCreateSignedUrl (str "thermal-images") (run_path r) 3600]).
Proof.
  apply (X12_end_to_end
           (Demo.world (Demo.ai_ok (Demo.completion (JString car_content)))
              Demo.inserted Demo.signed)
           Demo.request
           (Demo.run (Demo.ai_ok (Demo.completion (JString car_content))))
           (Demo.completion (JString car_content))
           (JString (str "0d9e7a52-1c3b-4f6a-8e2d-5b4c3a2f1e0d"))
           (JString (str "2023-11-14T22:13:20+00:00"))
           (str "https://store.example/sign/scan.png?token=t")).
  - repeat split; reflexivity.
  - reflexivity.
  - reflexivity.
Defined.

(** X13.  Nothing is stored, analysed or recorded for a caller the
    verifier has not resolved (lines 22-41 come before every other call):
    a run that uploads, calls the AI gateway or inserts has a header that
    is not empty and whose token the verifier resolved to a user without
    error. *)
Theorem X13_no_effect_without_user w req :
  exists resp tr,
    serve w req = (Returned resp, tr)
    /\ ((0 < count is_upload tr + count is_fetch tr + count is_insert tr)%nat ->
        exists authHeader user,
          authorization req = Some authHeader
          /\ is_empty authHeader = false
          /\ auth_getUser w (token_of authHeader)
             = Returned {| auth_user := Some user; auth_error := None |}).
Proof.
  destruct (serve_outcome w req)
    as (resp & tr & H & _ & _ & _ & _ & Hk & _ & Hres & _).
  exists resp, tr. split; [assumption | ]. intros Hpos.
  unfold count in Hpos.
  destruct tr as [| c1 [| c2 tr]].
  - simpl in Hpos. lia.
  - simpl in Hk. injection Hk as Hk. destruct c1; try discriminate Hk.
    simpl in Hpos. lia.
  - apply Hres. simpl. lia.
Qed.

Lemma after_ai_answered w req r :
  ai_answered w req r ->
  exists resp rest, serve w req = (Returned resp, calls_to_ai w r ++ rest).
Proof.
  intros Hai. rewrite (serve_ai_answered _ _ _ Hai). unfold calls_to_ai.
  destruct (ok (run_ai r)); go.
  2:{ unfold ai_failure. unfold_monad.
      destruct (ai_text (run_ai r)) as [t | e]; [| after_ai].
      destruct (ai_status (run_ai r) =? 429); [after_ai | ].
      destruct (ai_status (run_ai r) =? 402); after_ai. }
  unfold_monad.
  destruct (ai_json (run_ai r)) as [aiData | e]; [| after_ai].
  unfold save_and_respond. unfold_monad. go.
  destruct (db_insert w _ _) as [[id created_at | msg] | e]; go; try after_ai.
  destruct (storage_createSignedUrl w _ _ _) as [sg | e]; go; after_ai.
Qed.

(** X14.  A missing [LOVABLE_API_KEY] does not stop the handler (lines 17
    and 84): the AI gateway is called all the same, with the header
    [Authorization: Bearer undefined]. *)
Theorem X14_missing_api_key w req r :
  ai_answered w req r ->
  env_get w (str "LOVABLE_API_KEY") = None ->
  fetch_headers (run_init w r)
  = [(str "Authorization", str "Bearer undefined");
     (str "Content-Type", str "application/json")]
  /\ exists resp rest,
       serve w req
       = (Returned resp,
          [CallGetUser (token_of (run_header r));
           CallUpload bucket (run_key w r) (EntryFile (run_file r))
             (upload_options (EntryFile (run_file r)));
           CallFetch (run_init w r)] ++ rest).
Proof.
  intros Hai Hk. split.
  - unfold run_init. rewrite Hk. reflexivity.
  - apply (after_ai_answered _ _ _ Hai).
Qed.

Lemma X14_witness :
  let ai := Demo.ai_error 401 in
  let w := Cases.world (Returned tt) None Cases.accept (Returned ai) in
  let r := Demo.run ai in
  fetch_headers (run_init w r)
  = [(str "Authorization", str "Bearer undefined");
     (str "Content-Type", str "application/json")]
  /\ exists resp rest,
       serve w Demo.request
       = (Returned resp,
          [CallGetUser (token_of (run_header r));
           CallUpload bucket (run_key w r) (EntryFile (run_file r))
             (upload_options (EntryFile (run_file r)));
           CallFetch (run_init w r)] ++ rest).
Proof.
  apply (X14_missing_api_key
           (Cases.world (Returned tt) None Cases.accept (Returned (Demo.ai_error 401)))
           Demo.request (Demo.run (Demo.ai_error 401))).
  - repeat split; reflexivity.
  - reflexivity.
Defined.

(* ===================================================================== *)
(** ** The storage key and the bearer token *)
(* ===================================================================== *)

Lemma str_inj a b : str a = str b -> a = b.
Proof.
  unfold str. revert b.
  induction a as [| x a IH]; intros [| y b] H; simpl in H;
    try discriminate H; [reflexivity | ].
  injection H as Hx Hr. f_equal; [| now apply IH].
  now rewrite <- (ascii_N_embedding x), <- (ascii_N_embedding y), Hx.
Qed.

Lemma to_int_not_nil z : Z.to_int z <> Decimal.Pos Decimal.Nil
                         /\ Z.to_int z <> Decimal.Neg Decimal.Nil.
Proof.
  destruct z as [| p | p]; simpl; split; try discriminate;
    intros H; injection H as H; now apply DecimalPos.Unsigned.to_uint_nonnil in H.
Qed.

(** The decimal digits determine the number. *)
Lemma number_to_string_inj a b :
  number_to_string a = number_to_string b -> a = b.
Proof.
  unfold number_to_string. intros H. apply str_inj in H.
  apply (f_equal DecimalString.NilZero.int_of_string) in H.
  destruct (to_int_not_nil a) as [Ha1 Ha2], (to_int_not_nil b) as [Hb1 Hb2].
  rewrite !DecimalString.NilZero.isi in H by assumption.
  injection H as H. now apply DecimalZ.to_int_inj.
Qed.

Lemma uint_no_low_line d :
  ~ In 95%N (str (DecimalString.NilEmpty.string_of_uint d)).
Proof.
  unfold str.
  induction d; simpl; intros H;
    try (destruct H as [H | H]; [discriminate H | now auto]); exact H.
Qed.

(** No low line among the digits and the sign of a number. *)
Lemma number_to_string_no_low_line z : ~ In 95%N (number_to_string z).
Proof.
  unfold number_to_string, DecimalString.NilZero.string_of_int.
  destruct (Z.to_int z) as [d | d].
  - unfold DecimalString.NilZero.string_of_uint.
    destruct d; try apply uint_no_low_line.
    unfold str. simpl. intros [H | []]. discriminate H.
  - unfold DecimalString.NilZero.string_of_uint.
    assert (Hd : ~ In 95%N
                   (str match d with
                        | Decimal.Nil => "0"
                        | _ => DecimalString.NilEmpty.string_of_uint d
                        end)).
    { destruct d; try apply uint_no_low_line.
      unfold str. simpl. intros [H | []]. discriminate H. }
    unfold str in *. simpl. intros [H | H]; [discriminate H | now apply Hd].
Qed.

(** Two texts cut at the first separator. *)
Lemma split_at_sep (sep : N) a a' b b' :
  ~ In sep a -> ~ In sep a' ->
  a ++ sep :: b = a' ++ sep :: b' -> a = a' /\ b = b'.
Proof.
  revert a'. induction a as [| x a IH]; intros [| y a'] Ha Ha' H; simpl in H.
  - injection H as H. now split.
  - injection H as Hx _. exfalso. apply Ha'. left. now symmetry.
  - injection H as Hx _. exfalso. apply Ha. now left.
  - injection H as Hx Hr. subst y.
    destruct (IH a') as [-> ->]; try assumption.
    + intros Hin. apply Ha. now right.
    + intros Hin. apply Ha'. now right.
    + now split.
Qed.

(** The key determines the user, the time and the file name. *)
Lemma storage_key_inj u1 u2 n1 n2 e1 e2 :
  ~ In 47%N (user_id u1) -> ~ In 47%N (user_id u2) ->
  storage_key u1 n1 e1 = storage_key u2 n2 e2 ->
  user_id u1 = user_id u2 /\ n1 = n2
  /\ template (entry_name e1) = template (entry_name e2).
Proof.
  intros H1 H2 H. unfold storage_key in H.
  change (str "/" ++ number_to_string n1 ++ str "_" ++ template (entry_name e1))
    with (47%N :: number_to_string n1 ++ 95%N :: template (entry_name e1)) in H.
  change (str "/" ++ number_to_string n2 ++ str "_" ++ template (entry_name e2))
    with (47%N :: number_to_string n2 ++ 95%N :: template (entry_name e2)) in H.
  apply split_at_sep in H; try assumption. destruct H as [Hu H].
  apply split_at_sep in H; try apply number_to_string_no_low_line.
  destruct H as [Hn He]. apply number_to_string_inj in Hn. auto.
Qed.

(** X15.  Two uploads by one user that differ in the millisecond of line
    56 get different keys, also for the same file: the second does not
    meet the object of the first. *)
Theorem X15_keys_differ_by_time user file n1 n2 :
  n1 <> n2 ->
  storage_key user n1 file <> storage_key user n2 file.
Proof.
  intros Hn H. unfold storage_key in H.
  apply app_inv_head in H. apply app_inv_head in H.
  rewrite !app_assoc in H. apply app_inv_tail in H.
  apply app_inv_tail in H. now apply number_to_string_inj in H.
Qed.

Lemma X15_witness :
  storage_key Demo.user 1700000000000 (EntryFile Demo.file)
  <> storage_key Demo.user 1700000000001 (EntryFile Demo.file).
Proof. apply X15_keys_differ_by_time. lia. Defined.

(** X16.  The first path segment of the key of line 56 is the id of the
    user, ids having no solidus (they are UUIDs): it is the folder by
    which the policies of the migration tell the owner of an object. *)
Theorem X16_first_segment_is_owner user now file :
  ~ In 47%N (user_id user) ->
  first_segment (storage_key user now file) = user_id user.
Proof.
  intros Hn. unfold storage_key.
  change (str "/" ++ number_to_string now ++ str "_" ++ template (entry_name file))
    with (47%N :: number_to_string now ++ str "_" ++ template (entry_name file)).
  now apply first_segment_prefix.
Qed.

Lemma no_solidus_demo : ~ In 47%N (user_id Demo.user).
Proof.
  intros H. vm_compute in H.
  repeat (destruct H as [H | H]; [discriminate H | ]). exact H.
Qed.

Lemma X16_witness :
  first_segment (storage_key Demo.user 1700000000000 (EntryFile Demo.file))
  = user_id Demo.user.
Proof. apply X16_first_segment_is_owner. apply no_solidus_demo. Defined.

(** X17.  The key of line 56 can be read back: two keys that are equal
    come from the same user id, the same millisecond and the same file
    name, ids having no solidus.  So the objects of two users never share
    a key. *)
Theorem X17_key_read_back u1 u2 n1 n2 f1 f2 :
  ~ In 47%N (user_id u1) -> ~ In 47%N (user_id u2) ->
  storage_key u1 n1 (EntryFile f1) = storage_key u2 n2 (EntryFile f2) ->
  user_id u1 = user_id u2 /\ n1 = n2 /\ file_name f1 = file_name f2.
Proof.
  intros H1 H2 H. now apply (storage_key_inj _ _ _ _ _ _ H1 H2) in H.
Qed.

Lemma X17_witness :
  user_id Demo.user = user_id Demo.user
  /\ 1700000000000 = 1700000000000
  /\ file_name Demo.file = file_name Demo.file.
Proof.
  apply (X17_key_read_back Demo.user Demo.user 1700000000000 1700000000000
           Demo.file Demo.file).
  - apply no_solidus_demo.
  - apply no_solidus_demo.
  - reflexivity.
Defined.

Lemma strip_prefix_app pat r : Json.strip_prefix pat (pat ++ r) = Some r.
Proof.
  induction pat as [| x pat IH]; simpl; [reflexivity | ].
  now rewrite N.eqb_refl.
Qed.

Lemma remove_first_eq pat s :
  remove_first pat s
  = match Json.strip_prefix pat s with
    | Some rest => rest
    | None => match s with [] => [] | c :: t => c :: remove_first pat t end
    end.
Proof. destruct s; reflexivity. Qed.

(** [replace] with a string pattern removes the first occurrence, and
    nothing when there is none. *)
Lemma remove_first_spec pat s :
  (~ occurs pat s /\ remove_first pat s = s)
  \/ (exists a b,
        s = a ++ pat ++ b /\ remove_first pat s = a ++ b
        /\ forall a' b', s = a' ++ pat ++ b' -> (List.length a <= List.length a')%nat).
Proof.
  induction s as [| c t IH]; rewrite remove_first_eq.
  - destruct (Json.strip_prefix pat []) as [r |] eqn:E.
    + right. apply JsonFacts.strip_prefix_split in E.
      exists [], r. repeat split; try assumption. intros; simpl; lia.
    + left. split; [| reflexivity]. intros (a & b & H).
      destruct a; [| discriminate H]. destruct pat; [discriminate E | discriminate H].
  - destruct (Json.strip_prefix pat (c :: t)) as [r |] eqn:E.
    + right. apply JsonFacts.strip_prefix_split in E.
      exists [], r. repeat split; try assumption. intros; simpl; lia.
    + assert (Hhead : forall b, c :: t <> pat ++ b).
      { intros b H. rewrite H, strip_prefix_app in E. discriminate E. }
      destruct IH as [[Hno Hr] | (a & b & Ht & Hr & Hmin)].
      * left. split; [| now rewrite Hr]. intros (a & b & H).
        destruct a as [| x a]; [now apply (Hhead b) | ].
        injection H as _ H. apply Hno. now exists a, b.
      * right. exists (c :: a), b. repeat split.
        -- simpl. now rewrite <- Ht.
        -- simpl. now rewrite Hr.
        -- intros a' b' H. destruct a' as [| x a']; [now apply Hhead in H | ].
           injection H as _ H. apply Hmin in H. simpl. lia.
Qed.

(** X18.  The token handed to the verifier for a header [Bearer t] is [t]
    (line 32). *)
Theorem X18_bearer_prefix_stripped (t : jsstring) :
  token_of (str "Bearer " ++ t) = t.
Proof.
  unfold token_of. rewrite remove_first_eq. now rewrite strip_prefix_app.
Qed.

(** X19.  Line 32 removes the first [Bearer ] wherever it stands in the
    header, not only at its head, and leaves a header without it as it
    is: a bare token, or a scheme in another spelling, reaches the
    verifier whole. *)
Theorem X19_first_bearer_removed (authHeader : jsstring) :
  (~ occurs (str "Bearer ") authHeader /\ token_of authHeader = authHeader)
  \/ (exists a b,
        authHeader = a ++ str "Bearer " ++ b
        /\ token_of authHeader = a ++ b
        /\ forall a' b',
             authHeader = a' ++ str "Bearer " ++ b' ->
             (List.length a <= List.length a')%nat).
Proof. apply remove_first_spec. Qed.

(* ===================================================================== *)
(** ** More on the parsing of the AI answer *)
(* ===================================================================== *)

(** X20.  The pattern of line 145 finds exactly the text from the first
    opening bracket to the last closing bracket: prose or a code fence
    around an array is left out, provided that no bracket of its own
    stands before or after. *)
Theorem X20_match_first_to_last s m :
  match_brackets s = Some m
  <-> exists pre mid post,
        s = pre ++ m ++ post /\ m = 91%N :: mid ++ [93%N]
        /\ ~ In 91%N pre /\ ~ In 93%N post.
Proof.
  split; [apply match_brackets_Some | ].
  intros (pre & mid & post & -> & -> & Hpre & Hpost).
  assert (Hlast : upto_last_close (mid ++ [93%N] ++ post) = Some (mid ++ [93%N])).
  { induction mid as [| c mid IH]; simpl.
    - apply upto_last_close_None in Hpost. now rewrite Hpost.
    - simpl in IH. now rewrite IH. }
  induction pre as [| c pre IH]; simpl.
  - rewrite <- app_assoc. simpl in Hlast |- *. now rewrite Hlast.
  - destruct (N.eqb_spec c 91) as [-> | _].
    + exfalso. apply Hpre. now left.
    + apply IH. intros Hin. apply Hpre. now right.
Qed.

(** X21.  The [detections] of lines 141-162 is a list in all cases but
    one: when it is no array, the content is a string without a bracketed
    span that is itself the JSON text of that value. *)
Theorem X21_detections_a_list_unless aiData :
  ~ Json.is_array (parse_detections aiData) ->
  exists content,
    message_content aiData = Some (Some (JString content))
    /\ match_brackets content = None
    /\ Json.parse content = Some (parse_detections aiData).
Proof.
  unfold parse_detections, extract. intros Hna.
  destruct (message_content aiData) as [c |]; [| now elim Hna].
  assert (Hdefault : Json.parse (json_text (str "[]")) = Some (JArray []))
    by reflexivity.
  assert (Hstr : forall content,
             or_else c (JString (str "[]")) = JString content ->
             c = Some (JString content) \/ content = str "[]").
  { intros content H. unfold or_else in H.
    destruct c as [v |]; [| right; now injection H].
    destruct (truthy (Some v)); [left; now rewrite H | right; now injection H]. }
  destruct (or_else c (JString (str "[]"))) as [| | | content | |] eqn:E;
    try now elim Hna.
  destruct (Hstr content eq_refl) as [-> | ->].
  2:{ rewrite Hdefault in Hna. now elim Hna. }
  exists content. split; [reflexivity | ].
  unfold json_text in *.
  destruct (match_brackets content) as [m |] eqn:Em.
  - exfalso.
    destruct (match_brackets_Some _ _ Em) as (pre & mid & post & _ & -> & _).
    destruct (Json.parse (91%N :: mid ++ [93%N])) as [v |] eqn:Ev; [| now elim Hna].
    apply JsonFacts.parse_bracket_array in Ev. contradiction.
  - split; [reflexivity | ].
    destruct (Json.parse content) as [v |]; [reflexivity | now elim Hna].
Qed.

Lemma X21_witness :
  let aiData := Demo.completion (JString (js "{'label':'Car'}")) in
  exists content,
    message_content aiData = Some (Some (JString content))
    /\ match_brackets content = None
    /\ Json.parse content = Some (parse_detections aiData).
Proof.
  apply (X21_detections_a_list_unless
           (Demo.completion (JString (js "{'label':'Car'}")))).
  vm_compute. intros H. exact H.
Defined.

(** X22.  A content that is no string and is truthy (a number, [true], an
    object, or the array of parts some models answer with) has no [match]
    method: line 145 throws, and [detections] is the fallback
    detection. *)
Theorem X22_content_not_a_string aiData c :
  message_content aiData = Some (Some c) ->
  truthy (Some c) = true ->
  (forall content, c <> JString content) ->
  parse_detections aiData = fallback.
Proof.
  intros Hc Ht Hns. unfold parse_detections, extract. rewrite Hc.
  unfold or_else. rewrite Ht.
  destruct c; try reflexivity. now elim (Hns s).
Qed.

Lemma X22_witness :
  parse_detections
    (Demo.completion
       (JArray [JObject [(str "type", JString (str "text"));
                         (str "text", JString (str "[]"))]]))
  = fallback.
Proof.
  apply (X22_content_not_a_string
           (Demo.completion
              (JArray [JObject [(str "type", JString (str "text"));
                                (str "text", JString (str "[]"))]]))
           (JArray [JObject [(str "type", JString (str "text"));
                             (str "text", JString (str "[]"))]])).
  - reflexivity.
  - reflexivity.
  - intros content H. discriminate H.
Defined.

(** X23.  Every falsy content gives the empty list (line 143): not only a
    missing or [null] content, also the empty string, [false] and zero. *)
Theorem X23_falsy_content_empty_list aiData c :
  message_content aiData = Some c ->
  truthy c = false ->
  parse_detections aiData = JArray [].
Proof.
  intros Hc Ht. unfold parse_detections, extract. rewrite Hc.
  unfold or_else. destruct c as [v |]; [rewrite Ht | ]; reflexivity.
Qed.

Lemma X23_witness :
  parse_detections (Demo.completion (JString [])) = JArray []
  /\ parse_detections (Demo.completion (JBool false)) = JArray []
  /\ parse_detections (Demo.completion (num_int 0)) = JArray [].
Proof.
  split; [| split].
  - apply (X23_falsy_content_empty_list _ (Some (JString []))); reflexivity.
  - apply (X23_falsy_content_empty_list _ (Some (JBool false))); reflexivity.
  - apply (X23_falsy_content_empty_list _ (Some (num_int 0))); reflexivity.
Defined.

(** X24.  The parse of lines 147 and 149 always ends: with the fuel
    [Json.parse] gives it, or more, the parser ends in a value or in a
    syntax error, and the result is the same for every such amount. *)
Theorem X24_parse_ends s fuel :
  (Json.fuel_for s <= fuel)%nat ->
  Json.parse_text fuel s <> Json.OutOfFuel
  /\ Json.parse_text fuel s = Json.parse_text (Json.fuel_for s) s.
Proof.
  intros Hle. rewrite (JsonFacts.fuel_irrelevant s fuel Hle).
  split; [apply JsonFacts.fuel_enough | reflexivity].
Qed.

Lemma X24_witness :
  Json.parse_text 1000 car_content <> Json.OutOfFuel
  /\ Json.parse_text 1000 car_content
     = Json.parse_text (Json.fuel_for car_content) car_content.
Proof. apply X24_parse_ends. vm_compute. lia. Defined.

(* ===================================================================== *)
(** ** Throws after the upload *)
(* ===================================================================== *)

(** X25.  A throw of the signing call (lines 188-190) comes after the
    insert: the request is answered with status 500 from the outer
    [catch], yet the record has been inserted and the image uploaded, and
    neither is taken back. *)
Theorem X25_throw_after_insert w req r aiData id created_at e :
  ai_succeeded w req r aiData ->
  insert_answer w r (parse_detections aiData) = Returned (InsertedRow id created_at) ->
  sign_answer w r = Threw e ->
  let tr := calls_to_ai w r
            ++ [call_insert r (parse_detections aiData); call_sign r] in
  serve w req = (Returned (internal_error e), tr)
  /\ status (internal_error e) = 500
  /\ count is_upload tr = 1%nat
  /\ count is_insert tr = 1%nat
  /\ count is_remove tr = 0%nat.
Proof.
  intros Hs Hi Hg. rewrite (serve_ai_succeeded _ _ _ _ Hs), Hi. cbv zeta.
  rewrite Hg. repeat split.
Qed.

Lemma X25_witness :
  let ai := Demo.ai_ok (Demo.completion (JString (str "[]"))) in
  let w := Demo.world ai Demo.inserted (Threw (ErrorObject (str "fetch failed"))) in
  let r := Demo.run ai in
  let tr := calls_to_ai w r ++ [call_insert r (JArray []); call_sign r] in
  serve w Demo.request
  = (Returned (internal_error (ErrorObject (str "fetch failed"))), tr)
  /\ status (internal_error (ErrorObject (str "fetch failed"))) = 500
  /\ count is_upload tr = 1%nat
  /\ count is_insert tr = 1%nat
  /\ count is_remove tr = 0%nat.
Proof.
  apply (X25_throw_after_insert
           (Demo.world (Demo.ai_ok (Demo.completion (JString (str "[]"))))
              Demo.inserted (Threw (ErrorObject (str "fetch failed"))))
           Demo.request
           (Demo.run (Demo.ai_ok (Demo.completion (JString (str "[]")))))
           (Demo.completion (JString (str "[]")))
           (JString (str "0d9e7a52-1c3b-4f6a-8e2d-5b4c3a2f1e0d"))
           (JString (str "2023-11-14T22:13:20+00:00"))
           (ErrorObject (str "fetch failed"))).
  - repeat split; reflexivity.
  - reflexivity.
  - reflexivity.
Defined.

(** X26.  When the encoding of lines 75-76 throws, or the call of the AI
    gateway itself does (line 81, the network), the request is answered
    with status 500 from the outer [catch] after the upload: the image is
    in the store, nothing is inserted, and the object is not removed. *)
Theorem X26_throw_after_upload w req authHeader user fd file path e :
  authenticated w req authHeader user ->
  formData req = Returned fd ->
  form_get (str "image") fd = Some (EntryFile file) ->
  storage_upload w bucket (storage_key user (date_now w) (EntryFile file))
    (EntryFile file) (upload_options (EntryFile file))
  = Returned (UploadData path) ->
  base64 w (file_bytes file) = Threw e
  \/ (exists b,
        base64 w (file_bytes file) = Returned b
        /\ fetch w (ai_request (env_get w (str "LOVABLE_API_KEY")) (data_url file b))
           = Threw e) ->
  exists tr,
    serve w req = (Returned (internal_error e), tr)
    /\ status (internal_error e) = 500
    /\ count is_upload tr = 1%nat
    /\ count is_insert tr = 0%nat
    /\ count is_remove tr = 0%nat.
Proof.
  intros Hauth Hf Hg Hu Hthrow. rewrite (serve_authenticated _ _ _ _ Hauth).
  unfold_monad. rewrite Hf, Hg. go.
  unfold process, encode. unfold_monad. go. rewrite Hu.
  destruct Hthrow as [Hb | (b & Hb & Hfetch)]; rewrite Hb; go.
  - eexists. repeat split.
  - rewrite Hfetch. eexists. repeat split.
Qed.

Lemma X26_witness :
  exists tr,
    serve (Cases.world (Returned tt) (Some (str "key")) Cases.accept
             (Threw (ErrorObject (str "error sending request"))))
      Demo.request
    = (Returned (internal_error (ErrorObject (str "error sending request"))), tr)
    /\ status (internal_error (ErrorObject (str "error sending request"))) = 500
    /\ count is_upload tr = 1%nat
    /\ count is_insert tr = 0%nat
    /\ count is_remove tr = 0%nat.
Proof.
  apply (X26_throw_after_upload
           (Cases.world (Returned tt) (Some (str "key")) Cases.accept
              (Threw (ErrorObject (str "error sending request"))))
           Demo.request Demo.authHeader Demo.user
           [(str "image", EntryFile Demo.file)] Demo.file
           (storage_key Demo.user 1700000000000 (EntryFile Demo.file))
           (ErrorObject (str "error sending request"))).
  - repeat split; reflexivity.
  - reflexivity.
  - reflexivity.
  - reflexivity.
  - right. exists (str "iVBORw=="). split; reflexivity.
Defined.
